(** * weather-forecast-app: a shallow embedding of [app/app.py]

    The program is a Flask application with three layers:
    - the weather client [get_weather_forecast] (one HTTP GET, then parsing
      of the JSON answer into per-day entries),
    - the forecast store [init_db] / [save_forecast_to_db] (psycopg2),
    - the two request handlers [index] and [save_forecast].

    Python values that come out of [response.json()] / [json.loads] are
    modelled by the type [json]; Python's dynamic operations on them
    (subscripting, [in], [round], [.title()], iteration) are modelled with the
    exception each raises on a value of the wrong type.  Effects (network
    request, database calls, [flash], [print]) are recorded in a trace kept in
    an explicit [world]; exceptions are an [outcome].

    A Python str is modelled by [string], the sequence of the bytes of its
    UTF-8 encoding.  Substring tests and concatenation are the same on both.
    Title-casing is defined here for ASCII text; for text with other
    characters it follows the Unicode tables of the interpreter, which the
    environment supplies.  The texts of the exceptions the interpreter raises
    are worded as CPython 3.12 words them. *)

From Stdlib Require Import ZArith QArith Qround Qabs Ascii String List Bool Lia.
From stdpp Require Import base option list gmap strings.

Set Warnings "-register-all".
Local Open Scope string_scope.
Local Open Scope Z_scope.

(** ** Values *)

(** A Python float as parsed by the json module: a finite binary64 (given by
    its exact rational value), an infinity or a NaN ([json.loads] accepts the
    literals [Infinity], [-Infinity] and [NaN]). *)
Inductive pyfloat : Type :=
| Finite (q : Q)
| Infinity (negative : bool)
| NaN.

(** What [response.json()] and [json.loads] can return.  A dict is kept as
    the list of its items in insertion order; [dict_get] reads the first
    binding of a key. *)
Inductive json : Type :=
| JNull
| JBool (b : bool)
| JInt (z : Z)
| JFloat (f : pyfloat)
| JStr (s : string)
| JArr (items : list json)
| JObj (fields : list (string * json)).

Fixpoint dict_get (k : string) (fields : list (string * json)) : option json :=
  match fields with
  | [] => None
  | (k', v) :: rest => if String.eqb k k' then Some v else dict_get k rest
  end.

(** ** Exceptions *)

Inductive exn_class : Type :=
| KeyError | TypeError | AttributeError | IndexError | ValueError
| OverflowError | OSError
| JSONDecodeError                (* json.JSONDecodeError *)
| HTTPError (status_code : Z)    (* requests.exceptions.HTTPError, with e.response.status_code *)
| RequestException               (* any other requests.exceptions.RequestException *)
| OperationalError               (* psycopg2.OperationalError *)
| Psycopg2Error                  (* any other psycopg2.Error *)
| OtherException.                (* any other subclass of Exception *)

(** An exception object: its class and the text [str(e)] / [f"{e}"] gives. *)
Record exn : Type := Exn { exn_class_of : exn_class; exn_str : string }.

Inductive outcome (A : Type) : Type :=
| Ret (a : A)
| Raise (e : exn).
Arguments Ret {A} a.
Arguments Raise {A} e.

Definition is_HTTPError (e : exn) : option Z :=
  match exn_class_of e with HTTPError st => Some st | _ => None end.

(** [except requests.exceptions.RequestException]: HTTPError is a subclass. *)
Definition is_RequestException (e : exn) : bool :=
  match exn_class_of e with
  | HTTPError _ | RequestException => true
  | _ => false
  end.

Definition is_OperationalError (e : exn) : bool :=
  match exn_class_of e with OperationalError => true | _ => false end.

Definition is_JSONDecodeError (e : exn) : bool :=
  match exn_class_of e with JSONDecodeError => true | _ => false end.

(** ** Python string operations *)

(** [needle in hay] for two str objects. *)
Fixpoint str_contains (needle hay : string) : bool :=
  String.prefix needle hay ||
  match hay with
  | EmptyString => false
  | String _ rest => str_contains needle rest
  end.

Definition is_upper (c : ascii) : bool :=
  (65 <=? Z.of_N (N_of_ascii c)) && (Z.of_N (N_of_ascii c) <=? 90).
Definition is_lower (c : ascii) : bool :=
  (97 <=? Z.of_N (N_of_ascii c)) && (Z.of_N (N_of_ascii c) <=? 122).
Definition is_cased (c : ascii) : bool := is_upper c || is_lower c.

Definition to_upper (c : ascii) : ascii :=
  if is_lower c then ascii_of_N (N_of_ascii c - 32) else c.
Definition to_lower (c : ascii) : ascii :=
  if is_upper c then ascii_of_N (N_of_ascii c + 32) else c.

(** [str.title()]: a character that follows a cased character is lowered,
    any other character is put in title case. *)
Fixpoint title_from (previous_is_cased : bool) (s : string) : string :=
  match s with
  | EmptyString => EmptyString
  | String c rest =>
      String (if previous_is_cased then to_lower c else to_upper c)
             (title_from (is_cased c) rest)
  end.

(** [str.title()] on ASCII text. *)
Definition str_title (s : string) : string := title_from false s.

(** The text has ASCII characters only. *)
Fixpoint is_ascii_text (s : string) : bool :=
  match s with
  | EmptyString => true
  | String c rest => (Z.of_N (N_of_ascii c) <? 128) && is_ascii_text rest
  end.

(** Truthiness of an optional str ([None] and [""] are falsy). *)
Definition truthy (s : option string) : bool :=
  match s with
  | None | Some EmptyString => false
  | Some _ => true
  end.

(** ** Python operations on parsed JSON *)

Definition raise {A : Type} (c : exn_class) (text : string) : outcome A :=
  Raise (Exn c text).

(** [type(v).__name__] *)
Definition py_type_name (v : json) : string :=
  match v with
  | JNull => "NoneType"
  | JBool _ => "bool"
  | JInt _ => "int"
  | JFloat _ => "float"
  | JStr _ => "str"
  | JArr _ => "list"
  | JObj _ => "dict"
  end.

(** [d.get(k, default)]: only a dict has the method. *)
Definition py_dict_get (d : json) (k : string) (default : json) : outcome json :=
  match d with
  | JObj fields => Ret (match dict_get k fields with Some v => v | None => default end)
  | _ => raise AttributeError ("'" ++ py_type_name d ++ "' object has no attribute 'get'")
  end.

(** [v[k]] with a str key. *)
Definition py_getitem (v : json) (k : string) : outcome json :=
  match v with
  | JObj fields =>
      match dict_get k fields with
      | Some x => Ret x
      | None => raise KeyError ("'" ++ k ++ "'")
      end
  | JArr _ => raise TypeError "list indices must be integers or slices, not str"
  | JStr _ => raise TypeError "string indices must be integers, not 'str'"
  | _ => raise TypeError ("'" ++ py_type_name v ++ "' object is not subscriptable")
  end.

(** [v[0]].  The keys of a parsed JSON object are all str, so [0] is never
    one of them. *)
Definition py_getitem0 (v : json) : outcome json :=
  match v with
  | JArr (x :: _) => Ret x
  | JArr [] => raise IndexError "list index out of range"
  | JStr (String c _) => Ret (JStr (String c EmptyString))
  | JStr EmptyString => raise IndexError "string index out of range"
  | JObj _ => raise KeyError "0"
  | _ => raise TypeError ("'" ++ py_type_name v ++ "' object is not subscriptable")
  end.

(** The items a [for] loop over [v] visits. *)
Definition py_iter (v : json) : outcome (list json) :=
  match v with
  | JArr items => Ret items
  | JStr s => Ret (map (fun c => JStr (String c EmptyString)) (list_ascii_of_string s))
  | JObj fields => Ret (map (fun kv => JStr (fst kv)) fields)
  | _ => raise TypeError ("'" ++ py_type_name v ++ "' object is not iterable")
  end.

Definition is_str (needle : string) (v : json) : bool :=
  match v with JStr s => String.eqb needle s | _ => false end.

(** [needle in v] for a str [needle]: substring test on a str, membership on
    a list, key membership on a dict. *)
Definition py_contains (needle : string) (v : json) : outcome bool :=
  match v with
  | JStr s => Ret (str_contains needle s)
  | JArr items => Ret (existsb (is_str needle) items)
  | JObj fields => Ret (match dict_get needle fields with Some _ => true | None => false end)
  | _ => raise TypeError ("argument of type '" ++ py_type_name v ++ "' is not iterable")
  end.

(** [round(q)] on a float: to the nearest integer, ties to the even one. *)
Definition round_half_even (q : Q) : Z :=
  let f := Qfloor q in
  match Qcompare (q - inject_Z f) (1 # 2) with
  | Lt => f
  | Gt => f + 1
  | Eq => if Z.even f then f else f + 1
  end.

(** [round(v)] with one argument: an int. *)
Definition py_round (v : json) : outcome Z :=
  match v with
  | JInt z => Ret z
  | JBool b => Ret (if b then 1 else 0)
  | JFloat (Finite q) => Ret (round_half_even q)
  | JFloat (Infinity _) => raise OverflowError "cannot convert float infinity to integer"
  | JFloat NaN => raise ValueError "cannot convert float NaN to integer"
  | _ => raise TypeError ("type " ++ py_type_name v ++ " doesn't define __round__ method")
  end.

#[global] Instance outcome_ret : MRet outcome := fun A a => Ret a.
#[global] Instance outcome_bind : MBind outcome := fun A B f o =>
  match o with
  | Ret a => f a
  | Raise e => Raise e
  end.

(** ** The world: stored tables and the trace of effects *)

(** The two SQL statements of the program.
    [CreateForecasts] is
    [CREATE TABLE IF NOT EXISTS forecasts (id SERIAL PRIMARY KEY, user_name
    VARCHAR(100) NOT NULL, city VARCHAR(100) NOT NULL, forecast_data JSONB NOT
    NULL, saved_at TIMESTAMP WITH TIME ZONE DEFAULT CURRENT_TIMESTAMP)];
    [InsertForecast u c d] is
    [INSERT INTO forecasts (user_name, city, forecast_data) VALUES (%s, %s, %s)]
    with the parameters [(u, c, Json(d))]. *)
Inductive statement : Type :=
| CreateForecasts
| InsertForecast (user_name city : string) (forecast_data : json).

Inductive event : Type :=
| HttpGet (url : string)                  (* requests.get(url) *)
| DbConnect (dsn : option string)         (* psycopg2.connect(dsn) *)
| DbCursor                                (* conn.cursor() *)
| DbExecute (q : statement)               (* cur.execute(...) *)
| DbCursorClose                           (* leaving the with block *)
| DbCommit                                (* conn.commit() *)
| DbRollback                              (* conn.rollback() *)
| DbClose                                 (* conn.close() *)
| Flash (message category : string)       (* flash(message, category) *)
| Print (text : string).                  (* print(text) *)

Record saved_forecast : Type := SavedForecast {
  row_user_name : string;
  row_city : string;
  row_forecast_data : json;
  row_saved_at : Z
}.

(** A stored table: its column definitions (name, type and constraints) and
    its rows.  The values of the SERIAL column are drawn by the engine and
    are not part of the model. *)
Record table : Type := Table {
  columns : list (string * string);
  rows : list saved_forecast
}.

Record world : Type := World {
  stored : gmap string table;   (* committed relations, by name *)
  trace : list event            (* effects so far, oldest first *)
}.

(** ** The environment: configuration and the behaviour of the outside

    An environment describes the outside during one call of a handler or of
    a store function; successive calls may run under different
    environments. *)

Record response : Type := Response {
  status_code : Z;
  http_error_str : string;      (* str() of the HTTPError raise_for_status builds *)
  json_result : outcome json    (* what response.json() returns or raises *)
}.

Inductive http_result : Type :=
| ConnectionFailed (e : string)  (* requests.get raises a RequestException, str(e) = e *)
| Responded (r : response).

Record environment : Type := Environment {
  OPENWEATHER_API_KEY : option string;
  DATABASE_URL : option string;
  requests_get : string -> http_result;
  (* datetime.fromtimestamp(t).strftime('%A, %b %d') on a number t, in the
     local time zone and locale of the process *)
  fromtimestamp_strftime : json -> outcome string;
  (* str.title() on text that has non-ASCII characters, by the Unicode
     character tables of the interpreter *)
  unicode_title : string -> string;
  (* json.loads: the parsed value, or the exception it raises
     (json.JSONDecodeError on malformed text; RecursionError, ValueError, ...
     on text that exceeds the interpreter's limits) *)
  json_loads : string -> outcome json;
  (* psycopg2.connect(dsn): None is success *)
  psycopg2_connect : option string -> option exn;
  (* failures the driver or the server may report for the calls that reach
     the server or need a live connection; closing a cursor or a connection
     only releases it *)
  cursor_fault : option exn;
  execute_fault : statement -> option exn;
  commit_fault : option exn;
  rollback_fault : option exn;
  (* the server's CURRENT_TIMESTAMP in the transaction of this call *)
  CURRENT_TIMESTAMP : Z
}.

(** ** The effect monad *)

Definition M (A : Type) : Type := world -> outcome A * world.

Definition ret {A : Type} (a : A) : M A := fun w => (Ret a, w).

Definition throw {A : Type} (e : exn) : M A := fun w => (Raise e, w).

Definition bind {A B : Type} (m : M A) (k : A -> M B) : M B := fun w =>
  match m w with
  | (Ret a, w') => k a w'
  | (Raise e, w') => (Raise e, w')
  end.

Definition lift {A : Type} (o : outcome A) : M A := fun w => (o, w).

Definition emit (ev : event) : M unit := fun w =>
  (Ret tt, {| stored := stored w; trace := trace w ++ [ev] |}).

(** An external call that may fail: [None] is normal completion. *)
Definition may_fail (fault : option exn) : M unit :=
  match fault with
  | None => ret tt
  | Some e => throw e
  end.

(** [try: m except ...]: [handler e] is [None] when no [except] clause
    matches [e]. *)
Definition try_except {A : Type} (m : M A) (handler : exn -> option (M A)) : M A := fun w =>
  match m w with
  | (Ret a, w') => (Ret a, w')
  | (Raise e, w') =>
      match handler e with
      | Some h => h w'
      | None => (Raise e, w')
      end
  end.

(** [try: m finally: cleanup]: the cleanup runs on every exit; an exception
    of the cleanup replaces the outcome of [m]. *)
Definition try_finally {A : Type} (m : M A) (cleanup : M unit) : M A := fun w =>
  match m w with
  | (o, w') =>
      match cleanup w' with
      | (Ret _, w'') => (o, w'')
      | (Raise e, w'') => (Raise e, w'')
      end
  end.

Declare Scope effect_scope.
Delimit Scope effect_scope with effect.
Notation "'do' x <- m ; k" := (bind m (fun x => k))
  (at level 20, x name, m at level 100, k at level 200) : effect_scope.
Local Open Scope effect_scope.

Definition run {A : Type} (m : M A) (w : world) : outcome A := fst (m w).
Definition effects {A : Type} (m : M A) (w : world) : list event := trace (snd (m w)).
Definition database_after {A : Type} (m : M A) (w : world) : gmap string table :=
  stored (snd (m w)).

(** ** Weather client *)

Record forecast_entry : Type := ForecastEntry {
  date : string;
  temp : Z;
  description : string;
  icon : json
}.

Record city_info : Type := CityInfo {
  name : json;
  country : json
}.

(** The two shapes [get_weather_forecast] returns: the 2-tuple of the
    missing-key branch and the 4-tuple [(forecasts, city_info, data, error)]
    of all other branches. *)
Inductive forecast_result : Type :=
| Tuple2 (forecasts : option (list forecast_entry)) (error : string)
| Tuple4 (forecasts : option (list forecast_entry)) (info : option city_info)
         (data : option json) (error : option string).

Definition api_url (city key : string) : string :=
  "http://api.openweathermap.org/data/2.5/forecast?q=" ++ city
    ++ "&appid=" ++ key ++ "&units=metric".

(** [requests.get(url)] *)
Definition http_get (env : environment) (url : string) : M response :=
  do _ <- emit (HttpGet url);
  match requests_get env url with
  | ConnectionFailed e => throw (Exn RequestException e)
  | Responded r => ret r
  end.

(** [response.raise_for_status()]: HTTPError for a 4xx or 5xx status. *)
Definition raise_for_status (r : response) : outcome unit :=
  if (400 <=? status_code r) && (status_code r <? 600)
  then Raise (Exn (HTTPError (status_code r)) (http_error_str r))
  else Ret tt.

(** [datetime.fromtimestamp(v).strftime('%A, %b %d')]: a number is needed. *)
Definition py_date_label (env : environment) (v : json) : outcome string :=
  match v with
  | JInt _ | JFloat _ | JBool _ => fromtimestamp_strftime env v
  | _ => raise TypeError ("'" ++ py_type_name v ++ "' object cannot be interpreted as an integer")
  end.

(** [s.title()] on a str. *)
Definition py_str_title (env : environment) (s : string) : string :=
  if is_ascii_text s then str_title s else unicode_title env s.

(** [v.title()]: only a str has the method. *)
Definition py_title (env : environment) (v : json) : outcome string :=
  match v with
  | JStr s => Ret (py_str_title env s)
  | _ => raise AttributeError ("'" ++ py_type_name v ++ "' object has no attribute 'title'")
  end.

(** The dict literal appended for a midday sample; its four values are
    evaluated in source order. *)
Definition make_entry (env : environment) (forecast : json) : outcome forecast_entry :=
  dt ← py_getitem forecast "dt";
  d ← py_date_label env dt;
  main ← py_getitem forecast "main";
  t ← py_getitem main "temp";
  t ← py_round t;
  weather ← py_getitem forecast "weather";
  w0 ← py_getitem0 weather;
  desc ← py_getitem w0 "description";
  desc ← py_title env desc;
  weather ← py_getitem forecast "weather";
  w0 ← py_getitem0 weather;
  ic ← py_getitem w0 "icon";
  Ret {| date := d; temp := t; description := desc; icon := ic |}.

(** The body of the [for] loop, over the remaining samples. *)
Fixpoint process_forecasts (env : environment) (samples : list json)
    (processed_forecasts : list forecast_entry) : outcome (list forecast_entry) :=
  match samples with
  | [] => Ret processed_forecasts
  | forecast :: rest =>
      dt_txt ← py_getitem forecast "dt_txt";
      midday ← py_contains "12:00:00" dt_txt;
      if midday : bool
      then e ← make_entry env forecast;
           process_forecasts env rest (processed_forecasts ++ [e])
      else process_forecasts env rest processed_forecasts
  end.

Definition make_city_info (data : json) : outcome city_info :=
  c ← py_getitem data "city";
  n ← py_getitem c "name";
  c ← py_getitem data "city";
  co ← py_getitem c "country";
  Ret {| name := n; country := co |}.

(** The statements of the [try] block after the request. *)
Definition parse_response (env : environment) (r : response) : outcome forecast_result :=
  _ ← raise_for_status r;
  data ← json_result r;
  l ← py_dict_get data "list" (JArr []);
  samples ← py_iter l;
  processed_forecasts ← process_forecasts env samples [];
  info ← make_city_info data;
  Ret (Tuple4 (Some processed_forecasts) (Some info) (Some data) None).

(** The two [except] clauses. *)
Definition weather_handler (city : string) (e : exn) : option (M forecast_result) :=
  match is_HTTPError e with
  | Some status =>
      if status =? 404
      then Some (ret (Tuple4 None None None
             (Some ("Could not find weather data for '" ++ city ++ "'. Please check the spelling."))))
      else Some (ret (Tuple4 None None None (Some ("An API error occurred: " ++ exn_str e))))
  | None =>
      if is_RequestException e
      then Some (ret (Tuple4 None None None (Some ("A network error occurred: " ++ exn_str e))))
      else None
  end.

Definition get_weather_forecast (env : environment) (city : string) : M forecast_result :=
  match OPENWEATHER_API_KEY env with
  | None | Some EmptyString =>
      ret (Tuple2 None "OpenWeatherMap API key is not configured.")
  | Some key =>
      try_except
        (do r <- http_get env (api_url city key);
         lift (parse_response env r))
        (weather_handler city)
  end.

(** ** Forecast store *)

(** An open psycopg2 connection: the relations as the current transaction
    sees them.  [commit] makes this view the stored one; [rollback] and
    [close] drop it. *)
Record connection : Type := Connection { pending : gmap string table }.

Definition forecasts_columns : list (string * string) :=
  [ ("id", "SERIAL PRIMARY KEY");
    ("user_name", "VARCHAR(100) NOT NULL");
    ("city", "VARCHAR(100) NOT NULL");
    ("forecast_data", "JSONB NOT NULL");
    ("saved_at", "TIMESTAMP WITH TIME ZONE DEFAULT CURRENT_TIMESTAMP") ].

(** What the engine does with a statement it accepts.  Rejections other than
    a missing relation (length limits, lost connection, ...) are the
    [execute_fault] of the environment. *)
Definition run_statement (env : environment) (q : statement)
    (db : gmap string table) : outcome (gmap string table) :=
  match q with
  | CreateForecasts =>
      match db !! "forecasts" with
      | Some _ => Ret db
      | None => Ret (<["forecasts" := Table forecasts_columns []]> db)
      end
  | InsertForecast u c d =>
      match db !! "forecasts" with
      | Some t =>
          Ret (<["forecasts" :=
                 Table (columns t) (rows t ++ [SavedForecast u c d (CURRENT_TIMESTAMP env)])]> db)
      | None => raise Psycopg2Error "relation forecasts does not exist"
      end
  end.

(** [cur.execute(q)] *)
Definition cursor_execute (env : environment) (conn : connection) (q : statement) : M connection :=
  do _ <- emit (DbExecute q);
  do _ <- may_fail (execute_fault env q);
  do db <- lift (run_statement env q (pending conn));
  ret {| pending := db |}.

(** [with conn.cursor() as cur: body]: the cursor is closed on every exit of
    the body. *)
Definition with_cursor {A : Type} (env : environment) (body : M A) : M A :=
  do _ <- emit DbCursor;
  do _ <- may_fail (cursor_fault env);
  try_finally body (emit DbCursorClose).

Definition conn_commit (env : environment) (conn : connection) : M unit :=
  do _ <- emit DbCommit;
  do _ <- may_fail (commit_fault env);
  fun w => (Ret tt, {| stored := pending conn; trace := trace w |}).

Definition conn_rollback (env : environment) : M unit :=
  do _ <- emit DbRollback;
  may_fail (rollback_fault env).

Definition conn_close : M unit := emit DbClose.

Definition get_db_connection (env : environment) : M (option connection) :=
  try_except
    (do _ <- emit (DbConnect (DATABASE_URL env));
     do _ <- may_fail (psycopg2_connect env (DATABASE_URL env));
     fun w => (Ret (Some {| pending := stored w |}), w))
    (fun e =>
       if is_OperationalError e
       then Some (do _ <- emit (Print ("Error connecting to the database: " ++ exn_str e));
                  ret None)
       else None).

Definition init_db (env : environment) : M unit :=
  do conn <- get_db_connection env;
  match conn with
  | None => emit (Print "Could not initialize database. Connection failed.")
  | Some conn =>
      do conn <- with_cursor env (cursor_execute env conn CreateForecasts);
      do _ <- conn_commit env conn;
      do _ <- conn_close;
      emit (Print "Database initialized successfully.")
  end.

Definition save_forecast_to_db (env : environment) (user_name city : string)
    (forecast_data : json) : M (bool * string) :=
  do conn <- get_db_connection env;
  match conn with
  | None => ret (false, "Database connection failed.")
  | Some conn =>
      try_finally
        (try_except
           (do conn <- with_cursor env
                         (cursor_execute env conn (InsertForecast user_name city forecast_data));
            do _ <- conn_commit env conn;
            ret (true, "Forecast saved successfully!"))
           (fun e =>
              Some (do _ <- conn_rollback env;
                    do _ <- emit (Print ("Database error: " ++ exn_str e));
                    ret (false, "Failed to save forecast due to a database error."))))
        conn_close
  end.

(** ** Request handlers *)

Record request : Type := Request {
  method : string;
  form : gmap string string     (* request.form; [.get(k)] is [form !! k] *)
}.

Record page_context : Type := PageContext {
  ctx_forecasts : option (list forecast_entry);
  ctx_city_info : option city_info;
  ctx_user_name : string;
  ctx_raw_data_for_db : option json
}.

Inductive http_response : Type :=
| Redirect (endpoint : string)                                   (* redirect(url_for(endpoint)) *)
| RenderTemplate (template : string) (context : option page_context).

(** [forecasts, city_info, raw_data, error = r] *)
Definition unpack4 (r : forecast_result)
  : outcome (option (list forecast_entry) * option city_info * option json * option string) :=
  match r with
  | Tuple4 f c d e => Ret (f, c, d, e)
  | Tuple2 _ _ => raise ValueError "not enough values to unpack (expected 4, got 2)"
  end.

Definition index (env : environment) (req : request) : M http_response :=
  if String.eqb (method req) "POST" then
    match form req !! "name", form req !! "city" with
    | Some (String _ _ as user_name), Some (String _ _ as city) =>
        do r <- get_weather_forecast env city;
        do r <- lift (unpack4 r);
        let '(forecasts, info, raw_data, error) := r in
        match error with
        | Some (String _ _ as message) =>
            do _ <- emit (Flash message "error");
            ret (Redirect "index")
        | _ =>
            ret (RenderTemplate "index.html"
                   (Some {| ctx_forecasts := forecasts; ctx_city_info := info;
                            ctx_user_name := user_name; ctx_raw_data_for_db := raw_data |}))
        end
    | _, _ =>
        do _ <- emit (Flash "Please enter both your name and a city." "error");
        ret (Redirect "index")
    end
  else ret (RenderTemplate "index.html" None).

(** [json.loads(s)] *)
Definition py_json_loads (env : environment) (s : string) : outcome json :=
  json_loads env s.

Definition save_forecast (env : environment) (req : request) : M http_response :=
  match form req !! "user_name", form req !! "city", form req !! "raw_data" with
  | Some (String _ _ as user_name), Some (String _ _ as city), Some (String _ _ as raw_data_str) =>
      do _ <- try_except
                (do raw_data <- lift (py_json_loads env raw_data_str);
                 do r <- save_forecast_to_db env user_name city raw_data;
                 emit (Flash (snd r) (if fst r then "success" else "error")))
                (fun e =>
                   if is_JSONDecodeError e
                   then Some (emit (Flash "Invalid forecast data format." "error"))
                   else None);
      ret (Redirect "index")
  | _, _, _ =>
      do _ <- emit (Flash "Missing data to save the forecast." "error");
      ret (Redirect "index")
  end.

(** * Properties *)

(** The world after one more effect. *)
Definition record (ev : event) (w : world) : world :=
  {| stored := stored w; trace := trace w ++ [ev] |}.

(** What [json.loads] does on the few texts of the examples: "{}" is the
    empty object; "NaN" is accepted and gives the float NaN, although it is
    not JSON; the other texts used below are malformed. *)
Definition example_loads (s : string) : outcome json :=
  if String.eqb s "{}" then Ret (JObj [])
  else if String.eqb s "NaN" then Ret (JFloat NaN)
  else raise JSONDecodeError "Expecting value: line 1 column 1 (char 0)".

(** A fixed environment used to instantiate the statements below: a
    configured key, an upstream that answers every request with the given
    response, a database that accepts every call. *)
Definition answering (key : option string) (r : http_result) : environment := {|
  OPENWEATHER_API_KEY := key;
  DATABASE_URL := Some "postgresql://app@localhost:5432/weather";
  requests_get := fun _ => r;
  fromtimestamp_strftime := fun _ => Ret "Monday, Jan 01";
  unicode_title := fun s => s;   (* never consulted: the examples are ASCII *)
  json_loads := example_loads;
  psycopg2_connect := fun _ => None;
  cursor_fault := None;
  execute_fault := fun _ => None;
  commit_fault := None;
  rollback_fault := None;
  CURRENT_TIMESTAMP := 1704106800
|}.

(** A fixed environment with the given database behaviour: connection
    string, outcome of [psycopg2.connect], of [cur.execute] and of
    [conn.rollback]. *)
Definition with_database (dsn : option string) (connect execute rollback : option exn)
  : environment := {|
  OPENWEATHER_API_KEY := Some "secret";
  DATABASE_URL := dsn;
  requests_get := fun _ => ConnectionFailed "unreachable";
  fromtimestamp_strftime := fun _ => Ret "Monday, Jan 01";
  unicode_title := fun s => s;   (* never consulted: the examples are ASCII *)
  json_loads := example_loads;
  psycopg2_connect := fun _ => connect;
  cursor_fault := None;
  execute_fault := fun _ => execute;
  commit_fault := None;
  rollback_fault := rollback;
  CURRENT_TIMESTAMP := 1704106800
|}.

(** A fixed environment in which no database call fails, at the given
    time. *)
Definition at_time (now : Z) : environment := {|
  OPENWEATHER_API_KEY := Some "secret";
  DATABASE_URL := Some "postgresql://app@localhost:5432/weather";
  requests_get := fun _ => ConnectionFailed "unreachable";
  fromtimestamp_strftime := fun _ => Ret "Monday, Jan 01";
  unicode_title := fun s => s;   (* never consulted: the examples are ASCII *)
  json_loads := example_loads;
  psycopg2_connect := fun _ => None;
  cursor_fault := None;
  execute_fault := fun _ => None;
  commit_fault := None;
  rollback_fault := None;
  CURRENT_TIMESTAMP := now
|}.

(** The text of the ProgrammingError that [psycopg2.connect] raises on the
    connection string "not a connection string". *)
Definition invalid_dsn_text : string :=
  "invalid dsn: missing " ++ String "034" "=" ++ String "034" " after "
    ++ String "034" "not" ++ String "034" " in connection info string".

(** The world an effectful call leaves. *)
Definition call {A : Type} (m : M A) (w : world) : world := snd (m w).

(** The relations after [CREATE TABLE IF NOT EXISTS forecasts] is committed. *)
Definition ensure_forecasts (db : gmap string table) : gmap string table :=
  match db !! "forecasts" with
  | Some _ => db
  | None => <["forecasts" := Table forecasts_columns []]> db
  end.

(** No call of [init_db] fails in this environment. *)
Definition init_db_succeeds (env : environment) : bool :=
  match psycopg2_connect env (DATABASE_URL env), cursor_fault env,
        execute_fault env CreateForecasts, commit_fault env with
  | None, None, None, None => true
  | _, _, _, _ => false
  end.

Definition empty_world : world := {| stored := ∅; trace := [] |}.

Definition post (fields : list (string * string)) : request :=
  {| method := "POST"; form := list_to_map fields |}.

(** ** Vocabulary of the statements *)

(** The samples of a response document: the items of its 'list' array (none
    when the field is absent or is not an array). *)
Definition samples_of (data : json) : list json :=
  match data with
  | JObj fields =>
      match dict_get "list" fields with
      | Some (JArr items) => items
      | _ => []
      end
  | _ => []
  end.

(** The timestamp text of a sample, when it has one. *)
Definition timestamp_text (s : json) : option string :=
  match s with
  | JObj fields =>
      match dict_get "dt_txt" fields with
      | Some (JStr t) => Some t
      | _ => None
      end
  | _ => None
  end.

(** A sample whose timestamp text contains "12:00:00". *)
Definition is_midday_sample (s : json) : bool :=
  match timestamp_text s with
  | Some t => str_contains "12:00:00" t
  | None => false
  end.

Definition midday_count (data : json) : nat :=
  length (List.filter is_midday_sample (samples_of data)).

(** Every 'dt_txt' that is present is text. *)
Definition timestamps_are_text (data : json) : bool :=
  forallb (fun s =>
             match s with
             | JObj fields =>
                 match dict_get "dt_txt" fields with
                 | Some (JStr _) | None => true
                 | Some _ => false
                 end
             | _ => true
             end) (samples_of data).

(** The shape the upstream documents: an object whose 'list', when present,
    is an array; samples with a numeric 'dt', a textual 'dt_txt', a numeric
    'main.temp' and a first 'weather' item with a textual 'description' and
    an 'icon'; a 'city' object with 'name' and 'country'. *)
Definition has_sample_list (data : json) : bool :=
  match data with
  | JObj fields =>
      match dict_get "list" fields with
      | Some (JArr _) | None => true
      | Some _ => false
      end
  | _ => false
  end.

Definition has_timestamp_text (s : json) : bool :=
  match timestamp_text s with Some _ => true | None => false end.

Definition city_descriptor (data : json) : option city_info :=
  match data with
  | JObj fields =>
      match dict_get "city" fields with
      | Some (JObj c) =>
          match dict_get "name" c, dict_get "country" c with
          | Some n, Some co => Some {| name := n; country := co |}
          | _, _ => None
          end
      | _ => None
      end
  | _ => None
  end.

Definition is_finite_number (v : json) : bool :=
  match v with
  | JInt _ | JFloat (Finite _) => true
  | _ => false
  end.

Definition sample_complete (env : environment) (s : json) : bool :=
  match s with
  | JObj fields =>
      match dict_get "dt" fields, dict_get "main" fields,
            dict_get "weather" fields, dict_get "dt_txt" fields with
      | Some dt, Some (JObj m), Some (JArr (JObj w0 :: _)), Some (JStr _) =>
          is_finite_number dt
          && match fromtimestamp_strftime env dt with Ret _ => true | Raise _ => false end
          && match dict_get "temp" m with Some t => is_finite_number t | None => false end
          && match dict_get "description" w0 with Some (JStr _) => true | _ => false end
          && match dict_get "icon" w0 with Some _ => true | None => false end
      | _, _, _, _ => false
      end
  | _ => false
  end.

Definition well_formed (env : environment) (data : json) : bool :=
  has_sample_list data
  && forallb (sample_complete env) (samples_of data)
  && match city_descriptor data with Some _ => true | None => false end.

(** The samples the loop keeps: those for which ["12:00:00" in
    forecast['dt_txt']] evaluates to True. *)
Definition kept (s : json) : bool :=
  match py_getitem s "dt_txt" with
  | Ret v => match py_contains "12:00:00" v with Ret b => b | Raise _ => false end
  | Raise _ => false
  end.

(** Entry [e] carries the rounded temperature and the title-cased
    description ([d.title()]) of sample [s]. *)
Definition entry_follows (env : environment) (s : json) (e : forecast_entry) : Prop :=
  exists main t weather w0 d,
    py_getitem s "main" = Ret main /\ py_getitem main "temp" = Ret t /\
    py_round t = Ret (temp e) /\
    py_getitem s "weather" = Ret weather /\ py_getitem0 weather = Ret w0 /\
    py_getitem w0 "description" = Ret (JStr d) /\
    description e = py_str_title env d.

(** A sample as the upstream sends it. *)
Definition upstream_sample (dt : Z) (dt_txt : string) (t : json) (d ic : string) : json :=
  JObj [ ("dt", JInt dt);
         ("main", JObj [("temp", t)]);
         ("weather", JArr [JObj [("description", JStr d); ("icon", JStr ic)]]);
         ("dt_txt", JStr dt_txt) ].

Definition midday_sample (dt : Z) (t : json) (d ic : string) : json :=
  upstream_sample dt "2024-01-01 12:00:00" t d ic.

(** The binary64 nearest to 20.6, which is what the JSON text [20.6] parses
    to. *)
Definition twenty_point_six : Q := 2899192260119757 # 140737488355328.

Definition forecast_document (samples : list json) : json :=
  JObj [ ("list", JArr samples);
         ("city", JObj [("name", JStr "Paris"); ("country", JStr "FR")]) ].

(** ** Vocabulary of the further properties *)

(** Events of the web layer, of the network, of the store. *)
Definition is_http_event (ev : event) : bool :=
  match ev with HttpGet _ => true | _ => false end.

Definition is_flash_event (ev : event) : bool :=
  match ev with Flash _ _ => true | _ => false end.

Definition is_store_event (ev : event) : bool :=
  match ev with
  | DbConnect _ | DbCursor | DbExecute _ | DbCursorClose
  | DbCommit | DbRollback | DbClose | Print _ => true
  | _ => false
  end.

(** The row an accepted INSERT appends. *)
Definition new_row (env : environment) (user_name city : string) (forecast_data : json)
  : saved_forecast :=
  SavedForecast user_name city forecast_data (CURRENT_TIMESTAMP env).

Definition append_row (r : saved_forecast) (t : table) : table :=
  Table (columns t) (rows t ++ [r]).

(** No call of the insert path fails in this environment. *)
Definition insert_succeeds (env : environment) (q : statement) : bool :=
  match psycopg2_connect env (DATABASE_URL env), cursor_fault env,
        execute_fault env q, commit_fault env with
  | None, None, None, None => true
  | _, _, _, _ => false
  end.

(** The upstream did not deliver an answer the client parses: the request
    failed, or the status is 4xx or 5xx. *)
Definition upstream_failed (res : http_result) : bool :=
  match res with
  | ConnectionFailed _ => true
  | Responded r => (400 <=? status_code r) && (status_code r <? 600)
  end.

(** The message the client builds for a failed upstream. *)
Definition failure_message (city : string) (res : http_result) : string :=
  match res with
  | ConnectionFailed e => "A network error occurred: " ++ e
  | Responded r =>
      if status_code r =? 404
      then "Could not find weather data for '" ++ city ++ "'. Please check the spelling."
      else "An API error occurred: " ++ http_error_str r
  end.

Definition is_object (v : json) : bool :=
  match v with JObj _ => true | _ => false end.

(** The status passes [raise_for_status]. *)
Definition status_passes (r : response) : bool :=
  negb ((400 <=? status_code r) && (status_code r <? 600)).

(** [json.loads] raised json.JSONDecodeError. *)
Definition is_JSONDecodeError_raised (o : outcome json) : bool :=
  match o with
  | Raise e => is_JSONDecodeError e
  | Ret _ => false
  end.

(** The first call of the insert attempt that fails, if any, in source
    order: [conn.cursor()], [cur.execute(...)] (a fault of the driver or of
    the server, or the missing relation), [conn.commit()]. *)
Definition insert_failure (env : environment) (q : statement) (db : gmap string table)
  : option exn :=
  match cursor_fault env with
  | Some e => Some e
  | None =>
      match execute_fault env q with
      | Some e => Some e
      | None =>
          match run_statement env q db with
          | Raise e => Some e
          | Ret _ => commit_fault env
          end
      end
  end.

(** ** String and rounding examples *)

Example title_clear_sky : str_title "clear sky" = "Clear Sky".
Proof. reflexivity. Qed.

Example title_mixed : str_title "o'neil mc-donald 3rd" = "O'Neil Mc-Donald 3Rd".
Proof. reflexivity. Qed.

Example twenty_point_six_nearest :
  (Qabs.Qabs (twenty_point_six - (206 # 10)) < 1 # 562949953421312)%Q.
Proof. reflexivity. Qed.

(** On a 'dt_txt' that is not text, [in] is Python's membership test: a list
    holding the str "12:00:00" passes it, a number raises TypeError. *)
Example kept_on_list_timestamp :
  kept (JObj [("dt_txt", JArr [JStr "12:00:00"])]) = true
  /\ py_contains "12:00:00" (JInt 120000)
     = Raise (Exn TypeError "argument of type 'int' is not iterable").
Proof. split; reflexivity. Qed.

Example round_20_6 : round_half_even (206 # 10) = 21.
Proof. reflexivity. Qed.

Example round_ties : (round_half_even (1 # 2), round_half_even (3 # 2), round_half_even (5 # 2), round_half_even (-5 # 2)) = (0, 2, 2, -2).
Proof. reflexivity. Qed.

(** ** Missing credential *)

(** Without a credential the client returns its 2-tuple at once: the world,
    and with it the trace of requests, is unchanged. *)
Lemma get_weather_forecast_unconfigured (env : environment) (city : string) (w : world) :
  truthy (OPENWEATHER_API_KEY env) = false ->
  get_weather_forecast env city w =
    (Ret (Tuple2 None "OpenWeatherMap API key is not configured."), w).
Proof.
  unfold get_weather_forecast.
  destruct (OPENWEATHER_API_KEY env) as [[|c k]|]; simpl; intros H;
    try discriminate; reflexivity.
Qed.

(** The display handler unpacks four values from that 2-tuple: it raises
    ValueError before any [flash]. *)
Lemma index_unconfigured (env : environment) (req : request) (w : world) (c1 c2 : ascii) (n ci : string) :
  truthy (OPENWEATHER_API_KEY env) = false ->
  method req = "POST" ->
  form req !! "name" = Some (String c1 n) ->
  form req !! "city" = Some (String c2 ci) ->
  index env req w =
    (Raise (Exn ValueError "not enough values to unpack (expected 4, got 2)"), w).
Proof.
  intros Hkey Hm Hn Hc. unfold index. rewrite Hm, Hn, Hc. simpl.
  unfold bind. rewrite get_weather_forecast_unconfigured by assumption.
  reflexivity.
Qed.

(** C1 (the code departs from the claim): with the credential unset,
    [get_weather_forecast] returns the configuration error and performs no
    request, but the display handler then raises ValueError while unpacking
    the 2-tuple, so nothing is flashed and the fault leaves the handler. *)
Theorem index_missing_key_unhandled :
  let env := answering None (ConnectionFailed "unreachable") in
  let req := post [("name", "Alice"); ("city", "Paris")] in
  get_weather_forecast env "Paris" empty_world =
    (Ret (Tuple2 None "OpenWeatherMap API key is not configured."), empty_world)
  /\ run (index env req) empty_world =
       Raise (Exn ValueError "not enough values to unpack (expected 4, got 2)")
  /\ effects (index env req) empty_world = [].
Proof.
  cbv zeta. split; [reflexivity|].
  unfold run, effects.
  rewrite (index_unconfigured _ _ _ "A" "P" "lice" "aris") by reflexivity.
  split; reflexivity.
Qed.

(** ** The client with a credential *)

(** One request is made; what follows depends on the answer only. *)
Lemma get_weather_forecast_configured (env : environment) (city : string) (c : ascii)
    (k : string) (w : world) :
  OPENWEATHER_API_KEY env = Some (String c k) ->
  get_weather_forecast env city w =
    let w' := record (HttpGet (api_url city (String c k))) w in
    match requests_get env (api_url city (String c k)) with
    | ConnectionFailed e =>
        (Ret (Tuple4 None None None (Some ("A network error occurred: " ++ e))), w')
    | Responded r =>
        match parse_response env r with
        | Ret res => (Ret res, w')
        | Raise e =>
            match weather_handler city e with
            | Some h => h w'
            | None => (Raise e, w')
            end
        end
    end.
Proof.
  intros Hkey. unfold get_weather_forecast. rewrite Hkey.
  unfold try_except, bind, http_get, emit, lift, throw, ret, record. simpl.
  destruct (requests_get env (api_url city (String c k))) as [e|r]; simpl; [reflexivity|].
  destruct (parse_response env r); reflexivity.
Qed.

Lemma parse_response_http_error (env : environment) (r : response) :
  400 <= status_code r < 600 ->
  parse_response env r = Raise (Exn (HTTPError (status_code r)) (http_error_str r)).
Proof.
  intros [Hlo Hhi]. unfold parse_response, raise_for_status.
  apply Z.leb_le in Hlo. apply Z.ltb_lt in Hhi. rewrite Hlo, Hhi. reflexivity.
Qed.

Lemma raise_for_status_ok (r : response) :
  200 <= status_code r < 300 -> raise_for_status r = Ret tt.
Proof.
  intros [Hlo Hhi]. unfold raise_for_status.
  destruct (400 <=? status_code r) eqn:E; [apply Z.leb_le in E; lia | reflexivity].
Qed.

(** C4: when the upstream answers 404, the client returns no forecast, no
    city, no document, and the not-found message naming the requested city;
    exactly one request was made. *)
Theorem get_weather_forecast_404 (env : environment) (city : string) (c : ascii)
    (k : string) (r : response) (w : world) :
  OPENWEATHER_API_KEY env = Some (String c k) ->
  requests_get env (api_url city (String c k)) = Responded r ->
  status_code r = 404 ->
  get_weather_forecast env city w =
    (Ret (Tuple4 None None None
            (Some ("Could not find weather data for '" ++ city
                     ++ "'. Please check the spelling."))),
     record (HttpGet (api_url city (String c k))) w).
Proof.
  intros Hkey Hget Hst.
  rewrite (get_weather_forecast_configured env city c k w Hkey). cbv zeta.
  rewrite Hget, parse_response_http_error by lia.
  unfold weather_handler, is_HTTPError. simpl. rewrite Hst. reflexivity.
Qed.

Lemma get_weather_forecast_404_witness :
  let r := Response 404 "404 Client Error: Not Found" (Ret JNull) in
  get_weather_forecast (answering (Some "secret") (Responded r))
    "Nonexistentville123" empty_world =
    (Ret (Tuple4 None None None
            (Some ("Could not find weather data for '" ++ "Nonexistentville123"
                     ++ "'. Please check the spelling."))),
     record (HttpGet (api_url "Nonexistentville123" "secret")) empty_world).
Proof.
  intros r.
  apply (get_weather_forecast_404 (answering (Some "secret") (Responded r))
           "Nonexistentville123" "s" "ecret" r empty_world);
    reflexivity.
Defined.

(** ** Display handler: validation *)

(** C6: a POST to the display form whose name or city is empty or absent
    makes no request: the only effect is the validation flash, and the
    handler answers with the redirect to the form. *)
Theorem index_rejects_empty_fields (env : environment) (req : request) (w : world) :
  method req = "POST" ->
  truthy (form req !! "name") = false \/ truthy (form req !! "city") = false ->
  index env req w =
    (Ret (Redirect "index"),
     record (Flash "Please enter both your name and a city." "error") w).
Proof.
  intros Hm Hempty. unfold index. rewrite Hm. simpl.
  destruct (form req !! "name") as [[|c1 n]|], (form req !! "city") as [[|c2 ci]|];
    simpl in Hempty; try reflexivity;
    destruct Hempty; discriminate.
Qed.

Lemma index_rejects_empty_fields_witness :
  index (answering (Some "secret") (ConnectionFailed "unreachable"))
        (post [("name", "Alice"); ("city", "")]) empty_world =
    (Ret (Redirect "index"),
     {| stored := ∅; trace := [Flash "Please enter both your name and a city." "error"] |}).
Proof.
  apply (index_rejects_empty_fields _ (post [("name", "Alice"); ("city", "")]) empty_world).
  - reflexivity.
  - right. reflexivity.
Defined.

(** ** Parsing a successful answer *)

Lemma bind_Ret_inv {A B : Type} (o : outcome A) (f : A -> outcome B) (b : B) :
  o ≫= f = Ret b -> exists a, o = Ret a /\ f a = Ret b.
Proof.
  destruct o as [a|e]; simpl; intros H; [eauto | discriminate].
Qed.

(** An entry that was built carries the rounded temperature and the
    title-cased description of its sample. *)
Lemma make_entry_follows (env : environment) (s : json) (e : forecast_entry) :
  make_entry env s = Ret e -> entry_follows env s e.
Proof.
  unfold make_entry. intros H.
  apply bind_Ret_inv in H. destruct H as (dt & _ & H).
  apply bind_Ret_inv in H. destruct H as (label & _ & H).
  apply bind_Ret_inv in H. destruct H as (main & Hmain & H).
  apply bind_Ret_inv in H. destruct H as (t & Ht & H).
  apply bind_Ret_inv in H. destruct H as (rounded & Hround & H).
  apply bind_Ret_inv in H. destruct H as (weather & Hweather & H).
  apply bind_Ret_inv in H. destruct H as (w0 & Hw0 & H).
  apply bind_Ret_inv in H. destruct H as (desc & Hdesc & H).
  apply bind_Ret_inv in H. destruct H as (titled & Htitle & H).
  apply bind_Ret_inv in H. destruct H as (weather' & _ & H).
  apply bind_Ret_inv in H. destruct H as (w0' & _ & H).
  apply bind_Ret_inv in H. destruct H as (ic & _ & H).
  injection H as <-. simpl.
  destruct desc as [| | | |d| |]; simpl in Htitle; try discriminate.
  injection Htitle as <-.
  exists main, t, weather, w0, d. simpl. auto 10.
Qed.

(** The loop invariant: a run of the loop that completes has visited only
    samples whose 'dt_txt' could be read and tested, and has appended one
    entry per kept sample, in order. *)
Lemma process_forecasts_inv (env : environment) (samples : list json) :
  forall acc out,
    process_forecasts env samples acc = Ret out ->
    Forall (fun s => exists v b, py_getitem s "dt_txt" = Ret v /\
                                 py_contains "12:00:00" v = Ret b) samples /\
    exists new, out = (acc ++ new)%list /\
      Forall2 (fun s e => make_entry env s = Ret e) (List.filter kept samples) new.
Proof.
  induction samples as [|s rest IH]; intros acc out H; simpl in H.
  - injection H as <-. split; [constructor|]. exists []. split; [by rewrite app_nil_r | constructor].
  - apply bind_Ret_inv in H. destruct H as (v & Hv & H).
    apply bind_Ret_inv in H. destruct H as (b & Hb & H).
    assert (Hkept : kept s = b) by (unfold kept; rewrite Hv, Hb; reflexivity).
    simpl. rewrite Hkept. destruct b.
    + apply bind_Ret_inv in H. destruct H as (e & He & H).
      apply IH in H. destruct H as (Hall & new & -> & Hnew).
      split; [constructor; eauto|].
      exists (e :: new). split; [by rewrite <- app_assoc | by constructor].
    + apply IH in H. destruct H as (Hall & new & -> & Hnew).
      split; [constructor; eauto|].
      exists new. split; [reflexivity | assumption].
Qed.

(** On a sample with a textual timestamp the loop's test is the substring
    test on that text. *)
Lemma kept_text_timestamp (s : json) (t : string) :
  timestamp_text s = Some t -> kept s = str_contains "12:00:00" t.
Proof.
  unfold timestamp_text, kept, py_getitem.
  destruct s as [| | | | |?|fields]; try discriminate.
  destruct (dict_get "dt_txt" fields) as [[]|]; try discriminate.
  intros [= ->]. reflexivity.
Qed.

Lemma py_iter_samples (data l : json) (samples : list json) (env : environment)
    (out : list forecast_entry) :
  py_dict_get data "list" (JArr []) = Ret l ->
  py_iter l = Ret samples ->
  process_forecasts env samples [] = Ret out ->
  samples = samples_of data.
Proof.
  unfold py_dict_get, samples_of. destruct data as [| | | | |?|fields]; try discriminate.
  intros [= <-]. destruct (dict_get "list" fields) as [[| | | |s|items|kv]|]; simpl;
    try discriminate; try (by intros [= <-]).
  - (* a str: the loop would subscript a one-character str *)
    intros [= <-]. destruct s as [|c s]; [reflexivity|]. simpl. discriminate.
  - (* a dict: the loop would subscript a key *)
    intros [= <-]. destruct kv as [|[k v] kv]; [reflexivity|]. simpl. discriminate.
Qed.

(** What a returned success is made of. *)
Lemma parse_response_Ret (env : environment) (r : response) (res : forecast_result) :
  parse_response env r = Ret res ->
  exists data fs info,
    json_result r = Ret data /\
    res = Tuple4 (Some fs) (Some info) (Some data) None /\
    process_forecasts env (samples_of data) [] = Ret fs /\
    make_city_info data = Ret info.
Proof.
  unfold parse_response. intros H.
  apply bind_Ret_inv in H. destruct H as (_ & _ & H).
  apply bind_Ret_inv in H. destruct H as (data & Hdata & H).
  apply bind_Ret_inv in H. destruct H as (l & Hl & H).
  apply bind_Ret_inv in H. destruct H as (samples & Hs & H).
  apply bind_Ret_inv in H. destruct H as (fs & Hfs & H).
  apply bind_Ret_inv in H. destruct H as (info & Hinfo & H).
  injection H as <-.
  rewrite (py_iter_samples data l samples env fs Hl Hs Hfs) in Hfs.
  exists data, fs, info. auto.
Qed.

(** The handlers only build error tuples. *)
Lemma weather_handler_error (city : string) (e : exn) (h : M forecast_result) (w : world) :
  weather_handler city e = Some h ->
  exists msg, h w = (Ret (Tuple4 None None None (Some msg)), w).
Proof.
  unfold weather_handler.
  destruct (is_HTTPError e) as [st|].
  - destruct (st =? 404); intros [= <-]; eauto.
  - destruct (is_RequestException e); intros [= <-]; eauto.
Qed.

(** A forecast list is only ever returned from the success path. *)
Lemma get_weather_forecast_success (env : environment) (city : string) (c : ascii)
    (k : string) (r : response) (w : world) (fs : list forecast_entry)
    (info : option city_info) (raw : option json) (err : option string) :
  OPENWEATHER_API_KEY env = Some (String c k) ->
  requests_get env (api_url city (String c k)) = Responded r ->
  run (get_weather_forecast env city) w = Ret (Tuple4 (Some fs) info raw err) ->
  parse_response env r = Ret (Tuple4 (Some fs) info raw err).
Proof.
  intros Hkey Hget. unfold run.
  rewrite (get_weather_forecast_configured env city c k w Hkey). cbv zeta. rewrite Hget.
  destruct (parse_response env r) as [res|e] eqn:Hp; simpl.
  - intros [= ->]. reflexivity.
  - destruct (weather_handler city e) as [h|] eqn:Hh; simpl; [|discriminate].
    destruct (weather_handler_error city e h
                (record (HttpGet (api_url city (String c k))) w) Hh) as (msg & ->).
    simpl. discriminate.
Qed.

(** ** Counting the entries *)

Lemma filter_ext_Forall {A : Type} (f g : A -> bool) (l : list A) :
  Forall (fun x => f x = g x) l -> List.filter f l = List.filter g l.
Proof.
  induction 1 as [|x l Hx _ IH]; simpl; [reflexivity|].
  rewrite Hx, IH. reflexivity.
Qed.

(** Where the loop could read and test 'dt_txt', and 'dt_txt' is text, the
    loop's test and the substring test on the timestamp text agree. *)
Lemma kept_is_midday (s v : json) (b : bool) :
  py_getitem s "dt_txt" = Ret v ->
  py_contains "12:00:00" v = Ret b ->
  match s with
  | JObj fields =>
      match dict_get "dt_txt" fields with
      | Some (JStr _) | None => true
      | Some _ => false
      end
  | _ => true
  end = true ->
  kept s = is_midday_sample s.
Proof.
  unfold kept, is_midday_sample, timestamp_text, py_getitem.
  destruct s as [| | | | |?|fields]; try discriminate.
  destruct (dict_get "dt_txt" fields) as [[]|]; try discriminate; reflexivity.
Qed.

Lemma process_forecasts_count (env : environment) (samples : list json)
    (fs : list forecast_entry) :
  forallb (fun s =>
             match s with
             | JObj fields =>
                 match dict_get "dt_txt" fields with
                 | Some (JStr _) | None => true
                 | Some _ => false
                 end
             | _ => true
             end) samples = true ->
  process_forecasts env samples [] = Ret fs ->
  length fs = length (List.filter is_midday_sample samples).
Proof.
  intros Htext H.
  apply process_forecasts_inv in H. destruct H as (Hvisited & new & -> & Hnew).
  simpl.
  rewrite <- (filter_ext_Forall kept is_midday_sample samples).
  - symmetry. eapply Forall2_length; eassumption.
  - rewrite forallb_forall in Htext. rewrite List.Forall_forall in Hvisited |- *.
    intros s Hs. destruct (Hvisited s Hs) as (v & b & Hv & Hb).
    eapply kept_is_midday; eauto.
Qed.

Lemma make_entry_complete (env : environment) (s : json) :
  sample_complete env s = true -> exists e, make_entry env s = Ret e.
Proof.
  unfold sample_complete, make_entry, py_getitem.
  destruct s as [| | | | |?|fields]; try discriminate.
  destruct (dict_get "dt" fields) as [dt|]; [|discriminate].
  destruct (dict_get "main" fields) as [[| | | | |?|m]|]; try discriminate.
  destruct (dict_get "weather" fields) as [[| | | | |[|[| | | | |?|w0] ?]|?]|]; try discriminate.
  destruct (dict_get "dt_txt" fields) as [[| | | |?| |]|]; try discriminate.
  intros H. repeat (apply andb_prop in H; destruct H as [H ?]).
  simpl.
  destruct (dict_get "temp" m) as [t|]; [|discriminate].
  destruct (dict_get "description" w0) as [[| | | |d| |]|]; try discriminate.
  destruct (dict_get "icon" w0) as [ic|]; [|discriminate].
  assert (Hdate : exists lbl, py_date_label env dt = Ret lbl).
  { destruct dt as [| | |[]| | |]; try discriminate; simpl;
      destruct (fromtimestamp_strftime env _); try discriminate; eauto. }
  destruct Hdate as (lbl & ->). simpl.
  assert (Hround : exists z, py_round t = Ret z).
  { destruct t as [| | |[]| | |]; try discriminate; simpl; eauto. }
  destruct Hround as (z & ->). simpl. eauto.
Qed.

Lemma process_forecasts_total (env : environment) (samples : list json) :
  forallb (sample_complete env) samples = true ->
  forall acc, exists out, process_forecasts env samples acc = Ret out.
Proof.
  induction samples as [|s rest IH]; simpl; intros Hall acc; [eauto|].
  apply andb_prop in Hall. destruct Hall as [Hs Hrest].
  destruct (make_entry_complete env s Hs) as (e & He).
  unfold sample_complete in Hs. unfold py_getitem.
  destruct s as [| | | | |?|fields]; try discriminate.
  destruct (dict_get "dt" fields); [|discriminate].
  destruct (dict_get "main" fields) as [[| | | | |?|?]|]; try discriminate.
  destruct (dict_get "weather" fields) as [[| | | | |[|[| | | | |?|?] ?]|?]|]; try discriminate.
  destruct (dict_get "dt_txt" fields) as [[| | | |t| |]|]; try discriminate.
  simpl. destruct (str_contains "12:00:00" t).
  - rewrite He. simpl. apply IH, Hrest.
  - apply IH, Hrest.
Qed.

Lemma make_city_info_descriptor (data : json) (info : city_info) :
  city_descriptor data = Some info -> make_city_info data = Ret info.
Proof.
  unfold city_descriptor, make_city_info, py_getitem.
  destruct data as [| | | | |?|fields]; try discriminate.
  destruct (dict_get "city" fields) as [[| | | | |?|c]|]; try discriminate.
  simpl. destruct (dict_get "name" c), (dict_get "country" c); try discriminate.
  intros [= <-]. reflexivity.
Qed.

Lemma samples_iterated (data : json) :
  has_sample_list data = true ->
  (l ← py_dict_get data "list" (JArr []); py_iter l) = Ret (samples_of data).
Proof.
  unfold has_sample_list, samples_of, py_dict_get.
  destruct data as [| | | | |?|fields]; try discriminate.
  destruct (dict_get "list" fields) as [[]|]; try discriminate; reflexivity.
Qed.

(** A well-formed document of a 2xx answer is parsed to a success. *)
Lemma parse_response_total (env : environment) (r : response) (data : json) :
  200 <= status_code r < 300 ->
  json_result r = Ret data ->
  well_formed env data = true ->
  exists fs info,
    parse_response env r = Ret (Tuple4 (Some fs) (Some info) (Some data) None) /\
    process_forecasts env (samples_of data) [] = Ret fs /\
    city_descriptor data = Some info.
Proof.
  intros Hst Hjson Hwf. unfold well_formed in Hwf.
  apply andb_prop in Hwf. destruct Hwf as [Hwf Hcity].
  apply andb_prop in Hwf. destruct Hwf as [Hlist Hsamples].
  destruct (city_descriptor data) as [info|] eqn:Hinfo; [|discriminate].
  destruct (process_forecasts_total env _ Hsamples []) as (fs & Hfs).
  exists fs, info. split; [|auto].
  unfold parse_response. rewrite (raise_for_status_ok r Hst), Hjson. simpl.
  pose proof (samples_iterated data Hlist) as Hiter.
  destruct (py_dict_get data "list" (JArr [])) as [l|]; simpl in Hiter |- *; [|discriminate].
  rewrite Hiter. simpl. rewrite Hfs. simpl.
  rewrite (make_city_info_descriptor data info Hinfo). reflexivity.
Qed.

(** C2: for a 2xx answer whose samples carry textual timestamps, every
    forecast list the client returns has as many entries as the answer has
    samples whose 'dt_txt' text contains "12:00:00" (zero included); and on a
    well-formed document the client does return such a list. *)
Theorem forecast_count_is_midday_count (env : environment) (city : string) (c : ascii)
    (k : string) (r : response) (data : json) (w : world) :
  OPENWEATHER_API_KEY env = Some (String c k) ->
  requests_get env (api_url city (String c k)) = Responded r ->
  200 <= status_code r < 300 ->
  json_result r = Ret data ->
  timestamps_are_text data = true ->
  (forall fs info raw err,
      run (get_weather_forecast env city) w = Ret (Tuple4 (Some fs) info raw err) ->
      length fs = midday_count data)
  /\ (well_formed env data = true ->
      exists fs info,
        run (get_weather_forecast env city) w =
          Ret (Tuple4 (Some fs) (Some info) (Some data) None)
        /\ length fs = midday_count data).
Proof.
  intros Hkey Hget Hst Hjson Htext.
  assert (Hcount : forall fs,
             process_forecasts env (samples_of data) [] = Ret fs ->
             length fs = midday_count data).
  { intros fs Hfs. unfold midday_count.
    apply (process_forecasts_count env); assumption. }
  split.
  - intros fs info raw err Hrun.
    apply (get_weather_forecast_success env city c k r w) in Hrun; try assumption.
    apply parse_response_Ret in Hrun.
    destruct Hrun as (data' & fs' & info' & Hjson' & Hres & Hfs & _).
    rewrite Hjson in Hjson'. injection Hjson' as <-.
    injection Hres as -> _ _ _. auto.
  - intros Hwf.
    destruct (parse_response_total env r data Hst Hjson Hwf) as (fs & info & Hp & Hfs & _).
    exists fs, info. split; [|auto].
    unfold run. rewrite (get_weather_forecast_configured env city c k w Hkey).
    cbv zeta. rewrite Hget, Hp. reflexivity.
Qed.

Lemma forecast_count_is_midday_count_witness :
  let data := forecast_document
                [ upstream_sample 1704099600 "2024-01-01 09:00:00" (JInt 3) "light rain" "10d";
                  midday_sample 1704110400 (JFloat (Finite twenty_point_six)) "clear sky" "01d" ] in
  let env := answering (Some "secret") (Responded (Response 200 "" (Ret data))) in
  (forall fs info raw err,
      run (get_weather_forecast env "Paris") empty_world = Ret (Tuple4 (Some fs) info raw err) ->
      length fs = midday_count data)
  /\ (well_formed env data = true ->
      exists fs info,
        run (get_weather_forecast env "Paris") empty_world =
          Ret (Tuple4 (Some fs) (Some info) (Some data) None)
        /\ length fs = midday_count data).
Proof.
  intros data env.
  apply (forecast_count_is_midday_count env "Paris" "s" "ecret"
           (Response 200 "" (Ret data)) data empty_world).
  - reflexivity.
  - reflexivity.
  - simpl. lia.
  - reflexivity.
  - reflexivity.
Defined.

(** ** No midday sample *)

Lemma process_forecasts_none_kept (env : environment) (samples : list json) :
  forallb has_timestamp_text samples = true ->
  List.filter is_midday_sample samples = [] ->
  forall acc, process_forecasts env samples acc = Ret acc.
Proof.
  induction samples as [|s rest IH]; simpl; intros Htext Hnone acc; [reflexivity|].
  apply andb_prop in Htext. destruct Htext as [Hs Hrest].
  unfold has_timestamp_text in Hs.
  destruct (timestamp_text s) as [t|] eqn:Ht; [|discriminate].
  unfold is_midday_sample in Hnone. rewrite Ht in Hnone.
  unfold timestamp_text in Ht. unfold py_getitem.
  destruct s as [| | | | |?|fields]; try discriminate.
  destruct (dict_get "dt_txt" fields) as [[]|]; try discriminate.
  injection Ht as ->. simpl.
  destruct (str_contains "12:00:00" t); [discriminate|].
  apply IH; assumption.
Qed.

(** C3: a 2xx answer whose samples all carry a timestamp text, none of them
    containing "12:00:00", and which has a city descriptor, gives a success:
    the empty forecast list, the name and country of the descriptor, the
    document itself and no error. *)
Theorem no_midday_sample_is_success (env : environment) (city : string) (c : ascii)
    (k : string) (r : response) (data : json) (info : city_info) (w : world) :
  OPENWEATHER_API_KEY env = Some (String c k) ->
  requests_get env (api_url city (String c k)) = Responded r ->
  200 <= status_code r < 300 ->
  json_result r = Ret data ->
  has_sample_list data = true ->
  forallb has_timestamp_text (samples_of data) = true ->
  midday_count data = 0%nat ->
  city_descriptor data = Some info ->
  get_weather_forecast env city w =
    (Ret (Tuple4 (Some []) (Some info) (Some data) None),
     record (HttpGet (api_url city (String c k))) w).
Proof.
  intros Hkey Hget Hst Hjson Hlist Htext Hzero Hcity.
  rewrite (get_weather_forecast_configured env city c k w Hkey). cbv zeta. rewrite Hget.
  assert (Hp : parse_response env r = Ret (Tuple4 (Some []) (Some info) (Some data) None)).
  { unfold parse_response. rewrite (raise_for_status_ok r Hst), Hjson. simpl.
    pose proof (samples_iterated data Hlist) as Hiter.
    destruct (py_dict_get data "list" (JArr [])) as [l|]; simpl in Hiter |- *; [|discriminate].
    rewrite Hiter. simpl.
    rewrite (process_forecasts_none_kept env (samples_of data) Htext).
    - simpl. rewrite (make_city_info_descriptor data info Hcity). reflexivity.
    - unfold midday_count in Hzero.
      destruct (List.filter is_midday_sample (samples_of data)); [reflexivity | discriminate]. }
  rewrite Hp. reflexivity.
Qed.

Lemma no_midday_sample_is_success_witness :
  let data := forecast_document
                [ upstream_sample 1704099600 "2024-01-01 09:00:00" (JInt 3) "light rain" "10d";
                  upstream_sample 1704121200 "2024-01-01 15:00:00" (JInt 5) "few clouds" "02d" ] in
  let env := answering (Some "secret") (Responded (Response 200 "" (Ret data))) in
  get_weather_forecast env "Paris" empty_world =
    (Ret (Tuple4 (Some []) (Some {| name := JStr "Paris"; country := JStr "FR" |})
            (Some data) None),
     record (HttpGet (api_url "Paris" "secret")) empty_world).
Proof.
  intros data env.
  apply (no_midday_sample_is_success env "Paris" "s" "ecret"
           (Response 200 "" (Ret data)) data).
  - reflexivity.
  - reflexivity.
  - simpl. lia.
  - reflexivity.
  - reflexivity.
  - reflexivity.
  - reflexivity.
  - reflexivity.
Defined.

(** ** Content of the entries *)

Lemma parse_midday_sample (env : environment) (r : response) (dt : Z) (ic lbl : string) :
  200 <= status_code r < 300 ->
  json_result r =
    Ret (forecast_document
           [midday_sample dt (JFloat (Finite twenty_point_six)) "clear sky" ic]) ->
  fromtimestamp_strftime env (JInt dt) = Ret lbl ->
  parse_response env r =
    Ret (Tuple4
           (Some [ {| date := lbl; temp := 21; description := "Clear Sky"; icon := JStr ic |} ])
           (Some {| name := JStr "Paris"; country := JStr "FR" |})
           (Some (forecast_document
                    [midday_sample dt (JFloat (Finite twenty_point_six)) "clear sky" ic]))
           None).
Proof.
  intros Hst Hjson Hdate.
  unfold parse_response. rewrite (raise_for_status_ok r Hst), Hjson.
  cbn -[fromtimestamp_strftime]. rewrite Hdate. reflexivity.
Qed.

(** C5: the entries of a returned forecast list follow, in order, the samples
    the loop kept: each has the rounded 'main.temp' of its sample as
    temperature and the title-cased 'description' ([d.title()]) of the
    sample's first 'weather' item as description; on ASCII text the title
    case puts every letter that follows a non-letter in upper case and every
    other letter in lower case.  In particular one midday sample with
    temperature 20.6 and description "clear sky" gives one entry with
    temperature 21 and description "Clear Sky". *)
Theorem entries_round_and_title (env : environment) (city : string) (c : ascii)
    (k : string) (r : response) (data : json) (w : world) :
  OPENWEATHER_API_KEY env = Some (String c k) ->
  requests_get env (api_url city (String c k)) = Responded r ->
  200 <= status_code r < 300 ->
  json_result r = Ret data ->
  (forall fs info raw err,
      run (get_weather_forecast env city) w = Ret (Tuple4 (Some fs) info raw err) ->
      Forall2 (entry_follows env) (List.filter kept (samples_of data)) fs)
  /\ (forall d, is_ascii_text d = true -> py_str_title env d = str_title d)
  /\ (forall dt ic lbl,
      data = forecast_document
               [midday_sample dt (JFloat (Finite twenty_point_six)) "clear sky" ic] ->
      fromtimestamp_strftime env (JInt dt) = Ret lbl ->
      run (get_weather_forecast env city) w =
        Ret (Tuple4
               (Some [ {| date := lbl; temp := 21; description := "Clear Sky";
                          icon := JStr ic |} ])
               (Some {| name := JStr "Paris"; country := JStr "FR" |})
               (Some data) None)).
Proof.
  intros Hkey Hget Hst Hjson. split; [|split].
  - intros fs info raw err Hrun.
    apply (get_weather_forecast_success env city c k r w) in Hrun; try assumption.
    apply parse_response_Ret in Hrun.
    destruct Hrun as (data' & fs' & info' & Hjson' & Hres & Hfs & _).
    rewrite Hjson in Hjson'. injection Hjson' as <-.
    injection Hres as -> _ _ _.
    apply process_forecasts_inv in Hfs. destruct Hfs as (_ & new & -> & Hnew).
    simpl. eapply Forall2_impl; [exact Hnew|].
    intros s e. apply make_entry_follows.
  - intros d Hd. unfold py_str_title. rewrite Hd. reflexivity.
  - intros dt ic lbl -> Hdate.
    unfold run. rewrite (get_weather_forecast_configured env city c k w Hkey).
    cbv zeta. rewrite Hget.
    rewrite (parse_midday_sample env r dt ic lbl Hst Hjson Hdate). reflexivity.
Qed.

Lemma entries_round_and_title_witness :
  let data := forecast_document
                [midday_sample 1704110400 (JFloat (Finite twenty_point_six)) "clear sky" "01d"] in
  let env := answering (Some "secret") (Responded (Response 200 "" (Ret data))) in
  run (get_weather_forecast env "Paris") empty_world =
    Ret (Tuple4
           (Some [ {| date := "Monday, Jan 01"; temp := 21; description := "Clear Sky";
                      icon := JStr "01d" |} ])
           (Some {| name := JStr "Paris"; country := JStr "FR" |})
           (Some data) None).
Proof.
  intros data env.
  refine (proj2 (proj2 (entries_round_and_title env "Paris" "s" "ecret"
                          (Response 200 "" (Ret data)) data empty_world
                          eq_refl eq_refl _ eq_refl))
            1704110400 "01d" "Monday, Jan 01" eq_refl eq_refl).
  simpl. lia.
Defined.

(** ** Answers that lack a key *)

(** No [except] clause of the client matches a KeyError. *)
Lemma weather_handler_KeyError (city text : string) :
  weather_handler city (Exn KeyError text) = None.
Proof. reflexivity. Qed.

(** C10: there are 200 answers on which the client raises KeyError instead of
    returning an error tuple: a kept sample without 'main' or without
    'weather', a sample without 'dt_txt', a document without 'city'.  The
    display handler does not catch it either. *)
Theorem missing_key_raises_KeyError :
  let client := fun data =>
    run (get_weather_forecast
           (answering (Some "secret") (Responded (Response 200 "" (Ret data)))) "Paris")
        empty_world in
  client (JObj [("list", JArr [JObj [("dt", JInt 1704110400)]]);
                ("city", JObj [("name", JStr "Paris"); ("country", JStr "FR")])])
    = Raise (Exn KeyError "'dt_txt'")
  /\ client (JObj [("list", JArr [JObj [("dt", JInt 1704110400);
                                       ("dt_txt", JStr "2024-01-01 12:00:00")]]);
                   ("city", JObj [("name", JStr "Paris"); ("country", JStr "FR")])])
    = Raise (Exn KeyError "'main'")
  /\ client (JObj [("list", JArr [JObj [("dt", JInt 1704110400);
                                       ("main", JObj [("temp", JInt 7)]);
                                       ("dt_txt", JStr "2024-01-01 12:00:00")]]);
                   ("city", JObj [("name", JStr "Paris"); ("country", JStr "FR")])])
    = Raise (Exn KeyError "'weather'")
  /\ client (JObj [("list", JArr [])]) = Raise (Exn KeyError "'city'")
  /\ run (index (answering (Some "secret")
                   (Responded (Response 200 "" (Ret (JObj [("list", JArr [])])))))
            (post [("name", "Alice"); ("city", "Paris")])) empty_world
     = Raise (Exn KeyError "'city'").
Proof.
  cbv zeta. repeat split; vm_compute; reflexivity.
Qed.

(** ** Save handler: input checks *)

(** C7, as the code has it: a save submission whose 'raw_data' is present and
    on which [json.loads] raises JSONDecodeError never reaches the store: the
    handler's only effect is one error flash, then the redirect.  The flash is
    "Invalid forecast data format." when user name, city and raw data are all
    non-empty, and "Missing data to save the forecast." otherwise. *)
Theorem save_forecast_invalid_raw_data (env : environment) (req : request) (w : world)
    (raw : string) (e : exn) :
  form req !! "raw_data" = Some raw ->
  json_loads env raw = Raise e ->
  is_JSONDecodeError e = true ->
  save_forecast env req w =
    (Ret (Redirect "index"),
     record (Flash (if truthy (form req !! "user_name") && truthy (form req !! "city")
                       && truthy (Some raw)
                    then "Invalid forecast data format."
                    else "Missing data to save the forecast.") "error") w).
Proof.
  intros Hraw Hjson Hdecode. unfold save_forecast. rewrite Hraw.
  destruct (form req !! "user_name") as [[|c1 u]|], (form req !! "city") as [[|c2 ci]|],
    raw as [|c3 raw]; try reflexivity.
  unfold try_except, bind, lift, py_json_loads. rewrite Hjson, Hdecode. reflexivity.
Qed.

Lemma save_forecast_invalid_raw_data_witness :
  save_forecast (with_database (Some "postgresql://app@localhost:5432/weather") None None None)
    (post [("user_name", "Alice"); ("city", "Paris"); ("raw_data", "not-json")]) empty_world =
    (Ret (Redirect "index"),
     record (Flash "Invalid forecast data format." "error") empty_world).
Proof.
  apply (save_forecast_invalid_raw_data
           (with_database (Some "postgresql://app@localhost:5432/weather") None None None)
           (post [("user_name", "Alice"); ("city", "Paris"); ("raw_data", "not-json")])
           empty_world "not-json"
           (Exn JSONDecodeError "Expecting value: line 1 column 1 (char 0)"));
    reflexivity.
Defined.

(** C7 as stated fails in two ways.  With 'raw_data' present and not valid
    JSON but the user name absent, the flash is the missing-data one, not the
    invalid-format one.  And the text NaN, which is not JSON, is accepted by
    [json.loads]: the handler passes the float to the store, whose INSERT is
    executed (and here rejected by the server), and the flash is the store's
    message. *)
Lemma save_forecast_invalid_format_counterexample :
  let env := with_database (Some "postgresql://app@localhost:5432/weather") None None None in
  let no_name := post [("city", "Paris"); ("raw_data", "not-json")] in
  let rejecting := with_database (Some "postgresql://app@localhost:5432/weather") None
                     (Some (Exn Psycopg2Error "invalid input syntax for type json")) None in
  let not_a_number := post [("user_name", "Alice"); ("city", "Paris"); ("raw_data", "NaN")] in
  (form no_name !! "raw_data" = Some "not-json"
   /\ is_JSONDecodeError_raised (json_loads env "not-json") = true
   /\ effects (save_forecast env no_name) empty_world =
        [Flash "Missing data to save the forecast." "error"]
   /\ ~ In (Flash "Invalid forecast data format." "error")
          (effects (save_forecast env no_name) empty_world))
  /\
  (form not_a_number !! "raw_data" = Some "NaN"
   /\ json_loads rejecting "NaN" = Ret (JFloat NaN)
   /\ In (DbExecute (InsertForecast "Alice" "Paris" (JFloat NaN)))
        (effects (save_forecast rejecting not_a_number) empty_world)
   /\ ~ In (Flash "Invalid forecast data format." "error")
          (effects (save_forecast rejecting not_a_number) empty_world)).
Proof.
  cbv zeta. repeat split; try reflexivity.
  - vm_compute. intros [H|[]]. discriminate H.
  - vm_compute. auto.
  - vm_compute. intros H.
    repeat (destruct H as [H|H]; [discriminate H|]). exact H.
Qed.

(** ** Forecast store: reporting *)

Lemma get_db_connection_eq (env : environment) (w : world) :
  get_db_connection env w =
    let w1 := record (DbConnect (DATABASE_URL env)) w in
    match psycopg2_connect env (DATABASE_URL env) with
    | None => (Ret (Some {| pending := stored w |}), w1)
    | Some e =>
        if is_OperationalError e
        then (Ret None,
              record (Print ("Error connecting to the database: " ++ exn_str e)) w1)
        else (Raise e, w1)
    end.
Proof.
  unfold get_db_connection, try_except, bind, emit, may_fail, record.
  destruct (psycopg2_connect env (DATABASE_URL env)) as [e|]; simpl; [|reflexivity].
  destruct (is_OperationalError e); reflexivity.
Qed.

(** The [try] block of the insert: the statements up to [conn.commit()]. *)
Lemma insert_attempt_eq (env : environment) (conn : connection) (q : statement) (w : world) :
  (do conn' <- with_cursor env (cursor_execute env conn q);
   do _ <- conn_commit env conn';
   ret (true, "Forecast saved successfully!")) w =
  match cursor_fault env with
  | Some e => (Raise e, record DbCursor w)
  | None =>
      let w3 := record DbCursorClose (record (DbExecute q) (record DbCursor w)) in
      match execute_fault env q with
      | Some e => (Raise e, w3)
      | None =>
          match run_statement env q (pending conn) with
          | Raise e => (Raise e, w3)
          | Ret db =>
              match commit_fault env with
              | Some e => (Raise e, record DbCommit w3)
              | None =>
                  (Ret (true, "Forecast saved successfully!"),
                   {| stored := db; trace := trace (record DbCommit w3) |})
              end
          end
      end
  end.
Proof.
  unfold with_cursor, cursor_execute, conn_commit, try_finally, bind, emit, may_fail,
    lift, ret, throw, record.
  destruct (cursor_fault env); simpl; [reflexivity|].
  destruct (execute_fault env q); simpl; [reflexivity|].
  destruct (run_statement env q (pending conn)); simpl; [|reflexivity].
  destruct (commit_fault env); reflexivity.
Qed.

(** A failed attempt leaves the stored relations as they were. *)
Lemma insert_attempt_failure (env : environment) (conn : connection) (q : statement)
    (w : world) (e : exn) (w' : world) :
  (do conn' <- with_cursor env (cursor_execute env conn q);
   do _ <- conn_commit env conn';
   ret (true, "Forecast saved successfully!")) w = (Raise e, w') ->
  stored w' = stored w /\ exists mid, trace w' = (trace w ++ DbCursor :: mid)%list.
Proof.
  rewrite insert_attempt_eq. cbv zeta. unfold record.
  destruct (cursor_fault env); [intros [= _ <-]; simpl; split; eauto|].
  destruct (execute_fault env q);
    [intros [= _ <-]; simpl; split; [reflexivity|]; rewrite <- !app_assoc; simpl; eauto|].
  destruct (run_statement env q (pending conn));
    [|intros [= _ <-]; simpl; split; [reflexivity|]; rewrite <- !app_assoc; simpl; eauto].
  destruct (commit_fault env); [|discriminate].
  intros [= _ <-]; simpl; split; [reflexivity|]; rewrite <- !app_assoc; simpl; eauto.
Qed.

Lemma insert_attempt_success (env : environment) (conn : connection) (q : statement)
    (w : world) (res : bool * string) (w' : world) :
  (do conn' <- with_cursor env (cursor_execute env conn q);
   do _ <- conn_commit env conn';
   ret (true, "Forecast saved successfully!")) w = (Ret res, w') ->
  res = (true, "Forecast saved successfully!") /\
  run_statement env q (pending conn) = Ret (stored w') /\
  trace w' = (trace w ++ [DbCursor; DbExecute q; DbCursorClose; DbCommit])%list.
Proof.
  rewrite insert_attempt_eq. cbv zeta. unfold record.
  destruct (cursor_fault env); [discriminate|].
  destruct (execute_fault env q); [discriminate|].
  destruct (run_statement env q (pending conn)); [|discriminate].
  destruct (commit_fault env); [discriminate|].
  intros [= <- <-]. simpl. rewrite <- !app_assoc. auto.
Qed.

(** The whole of [save_forecast_to_db], by cases on what the calls do. *)
Lemma save_forecast_to_db_eq (env : environment) (user_name city : string)
    (forecast_data : json) (w : world) :
  save_forecast_to_db env user_name city forecast_data w =
    let w1 := record (DbConnect (DATABASE_URL env)) w in
    match psycopg2_connect env (DATABASE_URL env) with
    | Some e =>
        if is_OperationalError e
        then (Ret (false, "Database connection failed."),
              record (Print ("Error connecting to the database: " ++ exn_str e)) w1)
        else (Raise e, w1)
    | None =>
        match (do conn' <- with_cursor env
                             (cursor_execute env {| pending := stored w |}
                                (InsertForecast user_name city forecast_data));
               do _ <- conn_commit env conn';
               ret (true, "Forecast saved successfully!")) w1 with
        | (Ret res, w2) => (Ret res, record DbClose w2)
        | (Raise e, w2) =>
            match rollback_fault env with
            | Some e' => (Raise e', record DbClose (record DbRollback w2))
            | None =>
                (Ret (false, "Failed to save forecast due to a database error."),
                 record DbClose
                   (record (Print ("Database error: " ++ exn_str e)) (record DbRollback w2)))
            end
        end
    end.
Proof.
  unfold save_forecast_to_db. unfold bind at 1.
  rewrite get_db_connection_eq. cbv zeta.
  destruct (psycopg2_connect env (DATABASE_URL env)) as [e|].
  - destruct (is_OperationalError e); reflexivity.
  - unfold try_finally, try_except, conn_close.
    match goal with
    | |- context [bind ?a ?b ?w1] => destruct (bind a b w1) as [[res|e] w2]
    end.
    + reflexivity.
    + unfold conn_rollback, bind, emit, may_fail, record.
      destruct (rollback_fault env); reflexivity.
Qed.

(** Once a connection is open, [conn.close()] is the last effect on every
    exit, also when the rollback itself raises. *)
Lemma connection_always_closed (env : environment) (user_name city : string)
    (forecast_data : json) (w : world) :
  psycopg2_connect env (DATABASE_URL env) = None ->
  last (effects (save_forecast_to_db env user_name city forecast_data) w) = Some DbClose.
Proof.
  intros Hconn. unfold effects. rewrite save_forecast_to_db_eq, Hconn. cbv zeta.
  match goal with
  | |- context [bind ?a ?b ?w1] => destruct (bind a b w1) as [[res|e] w2]
  end.
  - apply last_snoc.
  - destruct (rollback_fault env); apply last_snoc.
Qed.

(** C8, as the code has it: when [psycopg2.connect] succeeds or raises
    OperationalError, and [conn.rollback()] does not itself raise,
    [save_forecast_to_db] returns a (flag, message) pair.  A failed
    connection gives (False, "Database connection failed."), a message
    different from the write-failure one, and nothing else is attempted.
    With a connection, if no call of the insert fails, the row is committed
    and the result is (True, "Forecast saved successfully!"); if a call of
    the insert fails (the cursor, the statement or the commit), the
    transaction is rolled back, the error is printed, and only then the write
    failure is returned, with the stored relations unchanged.  In both cases
    the connection is closed, as the last effect. *)
Theorem save_forecast_to_db_reports (env : environment) (user_name city : string)
    (forecast_data : json) (w : world) :
  (forall e, psycopg2_connect env (DATABASE_URL env) = Some e -> is_OperationalError e = true) ->
  rollback_fault env = None ->
  exists flag msg tr,
    run (save_forecast_to_db env user_name city forecast_data) w = Ret (flag, msg) /\
    effects (save_forecast_to_db env user_name city forecast_data) w = (trace w ++ tr)%list /\
    match psycopg2_connect env (DATABASE_URL env) with
    | Some e =>
        (flag, msg) = (false, "Database connection failed.") /\
        msg <> "Failed to save forecast due to a database error." /\
        tr = [DbConnect (DATABASE_URL env);
              Print ("Error connecting to the database: " ++ exn_str e)] /\
        database_after (save_forecast_to_db env user_name city forecast_data) w = stored w
    | None =>
        match insert_failure env (InsertForecast user_name city forecast_data) (stored w) with
        | None =>
            (flag, msg) = (true, "Forecast saved successfully!") /\
            tr = [DbConnect (DATABASE_URL env); DbCursor;
                  DbExecute (InsertForecast user_name city forecast_data);
                  DbCursorClose; DbCommit; DbClose] /\
            run_statement env (InsertForecast user_name city forecast_data) (stored w)
              = Ret (database_after (save_forecast_to_db env user_name city forecast_data) w)
        | Some e =>
            (flag, msg) = (false, "Failed to save forecast due to a database error.") /\
            database_after (save_forecast_to_db env user_name city forecast_data) w = stored w /\
            exists mid,
              tr = (DbConnect (DATABASE_URL env) :: DbCursor :: mid
                      ++ [DbRollback; Print ("Database error: " ++ exn_str e); DbClose])%list
              /\ ~ In DbRollback mid /\ ~ In DbClose mid
        end
    end.
Proof.
  intros Hconn Hrollback.
  unfold run, effects, database_after.
  rewrite save_forecast_to_db_eq. cbv zeta.
  destruct (psycopg2_connect env (DATABASE_URL env)) as [e|] eqn:Hc.
  - rewrite (Hconn e eq_refl). simpl.
    exists false, "Database connection failed.",
      [DbConnect (DATABASE_URL env); Print ("Error connecting to the database: " ++ exn_str e)].
    rewrite <- !app_assoc. simpl. repeat split; try reflexivity. discriminate.
  - rewrite insert_attempt_eq. cbv zeta. unfold insert_failure. rewrite Hrollback.
    cbn [pending].
    destruct (cursor_fault env) as [e|].
    { unfold record. simpl. rewrite <- !app_assoc. simpl.
      do 3 eexists. split; [reflexivity|]. split; [reflexivity|].
      split; [reflexivity|]. split; [reflexivity|].
      exists []. split; [reflexivity|]. split; intros []. }
    destruct (execute_fault env _) as [e|].
    { unfold record. simpl. rewrite <- !app_assoc. simpl.
      do 3 eexists. split; [reflexivity|]. split; [reflexivity|].
      split; [reflexivity|]. split; [reflexivity|].
      exists [DbExecute (InsertForecast user_name city forecast_data); DbCursorClose].
      split; [reflexivity|]. split; intros [H|[H|[]]]; discriminate. }
    destruct (run_statement env _ (stored w)) as [db|e].
    2:{ unfold record. simpl. rewrite <- !app_assoc. simpl.
        do 3 eexists. split; [reflexivity|]. split; [reflexivity|].
        split; [reflexivity|]. split; [reflexivity|].
        exists [DbExecute (InsertForecast user_name city forecast_data); DbCursorClose].
        split; [reflexivity|]. split; intros [H|[H|[]]]; discriminate. }
    destruct (commit_fault env) as [e|].
    { unfold record. simpl. rewrite <- !app_assoc. simpl.
      do 3 eexists. split; [reflexivity|]. split; [reflexivity|].
      split; [reflexivity|]. split; [reflexivity|].
      exists [DbExecute (InsertForecast user_name city forecast_data); DbCursorClose; DbCommit].
      split; [reflexivity|]. split; intros [H|[H|[H|[]]]]; discriminate. }
    unfold record. simpl. rewrite <- !app_assoc. simpl.
    do 3 eexists. split; [reflexivity|]. split; [reflexivity|].
    split; [reflexivity|]. split; reflexivity.
Qed.

Lemma save_forecast_to_db_reports_witness :
  let e := Exn Psycopg2Error "value too long for type character varying(100)" in
  let env := with_database (Some "postgresql://app@localhost:5432/weather") None (Some e) None in
  let w := {| stored := {["forecasts" := Table forecasts_columns []]}; trace := [] |} in
  let save := save_forecast_to_db env "Alice" "Paris" (JObj []) in
  exists flag msg tr,
    run save w = Ret (flag, msg) /\
    effects save w = (trace w ++ tr)%list /\
    (flag, msg) = (false, "Failed to save forecast due to a database error.") /\
    database_after save w = stored w /\
    exists mid,
      tr = (DbConnect (DATABASE_URL env) :: DbCursor :: mid
              ++ [DbRollback; Print ("Database error: " ++ exn_str e); DbClose])%list
      /\ ~ In DbRollback mid /\ ~ In DbClose mid.
Proof.
  intros e env w save.
  apply (save_forecast_to_db_reports env "Alice" "Paris" (JObj []) w).
  - intros e' H. discriminate H.
  - reflexivity.
Defined.

(** C8 as stated fails: [psycopg2.connect] raises ProgrammingError on a
    connection string it cannot parse, which [get_db_connection] does not
    catch; and when the connection is lost during the insert, the rollback
    in the [except] block raises in turn.  Both exceptions leave
    [save_forecast_to_db]. *)
Lemma save_forecast_to_db_raises_counterexample :
  run (save_forecast_to_db
         (with_database (Some "not a connection string")
            (Some (Exn Psycopg2Error invalid_dsn_text)) None None)
         "Alice" "Paris" (JObj [])) empty_world
    = Raise (Exn Psycopg2Error invalid_dsn_text)
  /\
  run (save_forecast_to_db
         (with_database (Some "postgresql://app@localhost:5432/weather") None
            (Some (Exn OperationalError "server closed the connection unexpectedly"))
            (Some (Exn Psycopg2Error "connection already closed")))
         "Alice" "Paris" (JObj [])) empty_world
    = Raise (Exn Psycopg2Error "connection already closed").
Proof.
  split; reflexivity.
Qed.

(** ** Forecast store: schema bootstrap *)

Lemma ensure_forecasts_idempotent (db : gmap string table) :
  ensure_forecasts (ensure_forecasts db) = ensure_forecasts db.
Proof.
  unfold ensure_forecasts.
  destruct (db !! "forecasts") as [t|] eqn:Hdb.
  - rewrite Hdb. reflexivity.
  - rewrite lookup_insert_eq. reflexivity.
Qed.

Lemma ensure_forecasts_present (db : gmap string table) (t : table) :
  db !! "forecasts" = Some t -> ensure_forecasts db = db.
Proof.
  unfold ensure_forecasts. intros ->. reflexivity.
Qed.

Lemma run_statement_create (env : environment) (db : gmap string table) :
  run_statement env CreateForecasts db = Ret (ensure_forecasts db).
Proof.
  unfold run_statement, ensure_forecasts. destruct (db !! "forecasts"); reflexivity.
Qed.

(** What one call of [init_db] leaves stored: the relations with the
    forecasts table ensured when every call succeeded, the relations as they
    were otherwise. *)
Lemma init_db_stored (env : environment) (w : world) :
  stored (call (init_db env) w) =
    if init_db_succeeds env then ensure_forecasts (stored w) else stored w.
Proof.
  unfold call, init_db, init_db_succeeds. unfold bind at 1.
  rewrite get_db_connection_eq. cbv zeta.
  destruct (psycopg2_connect env (DATABASE_URL env)) as [e|].
  - destruct (is_OperationalError e); reflexivity.
  - unfold with_cursor, cursor_execute, conn_commit, conn_close, try_finally, bind, emit,
      may_fail, lift, ret, throw, record.
    destruct (cursor_fault env); cbn -[run_statement]; [reflexivity|].
    destruct (execute_fault env CreateForecasts); cbn -[run_statement]; [reflexivity|].
    rewrite run_statement_create. cbn.
    destruct (commit_fault env); reflexivity.
Qed.

(** C9: [init_db] is idempotent on the stored relations: any number of
    calls, one or more, leaves what a single call leaves; and when the
    forecasts table exists, a call (whatever the calls to the driver do)
    leaves the stored relations, schema and rows, as they were. *)
Theorem init_db_idempotent (env : environment) (w : world) (n : nat) :
  stored (Nat.iter (S n) (call (init_db env)) w) = stored (call (init_db env) w)
  /\ (forall env' t,
        stored w !! "forecasts" = Some t ->
        stored (call (init_db env') w) = stored w).
Proof.
  split.
  - induction n as [|n IH]; [reflexivity|].
    change (Nat.iter (S (S n)) (call (init_db env)) w)
      with (call (init_db env) (Nat.iter (S n) (call (init_db env)) w)).
    rewrite init_db_stored, IH, init_db_stored.
    destruct (init_db_succeeds env); [apply ensure_forecasts_idempotent | reflexivity].
  - intros env' t Ht. rewrite init_db_stored.
    destruct (init_db_succeeds env'); [|reflexivity].
    apply (ensure_forecasts_present _ t Ht).
Qed.

Lemma init_db_idempotent_witness :
  let env := with_database (Some "postgresql://app@localhost:5432/weather") None None None in
  let w := call (init_db env) empty_world in
  stored w !! "forecasts" = Some (Table forecasts_columns [])
  /\ stored (call (init_db env) w) = stored w.
Proof.
  intros env w. split; [reflexivity|].
  apply (proj2 (init_db_idempotent env w 0) env (Table forecasts_columns [])).
  reflexivity.
Defined.

(** * Further properties of the code *)

(** ** Weather client: failures of the upstream *)

(** X1: a 4xx or 5xx answer other than 404 gives no data and the message
    "An API error occurred: " followed by the text of the HTTPError. *)
Theorem other_http_error_is_api_error (env : environment) (city : string) (c : ascii)
    (k : string) (r : response) (w : world) :
  OPENWEATHER_API_KEY env = Some (String c k) ->
  requests_get env (api_url city (String c k)) = Responded r ->
  400 <= status_code r < 600 ->
  status_code r <> 404 ->
  get_weather_forecast env city w =
    (Ret (Tuple4 None None None (Some ("An API error occurred: " ++ http_error_str r))),
     record (HttpGet (api_url city (String c k))) w).
Proof.
  intros Hkey Hget Hst Hne.
  rewrite (get_weather_forecast_configured env city c k w Hkey). cbv zeta.
  rewrite Hget, parse_response_http_error by assumption.
  unfold weather_handler, is_HTTPError. simpl.
  destruct (status_code r =? 404) eqn:E; [apply Z.eqb_eq in E; contradiction | reflexivity].
Qed.

Lemma other_http_error_is_api_error_witness :
  let r := Response 503 "503 Server Error: Service Unavailable" (Ret JNull) in
  get_weather_forecast (answering (Some "secret") (Responded r)) "Paris" empty_world =
    (Ret (Tuple4 None None None
            (Some ("An API error occurred: " ++ "503 Server Error: Service Unavailable"))),
     record (HttpGet (api_url "Paris" "secret")) empty_world).
Proof.
  intros r.
  apply (other_http_error_is_api_error (answering (Some "secret") (Responded r))
           "Paris" "s" "ecret" r empty_world).
  - reflexivity.
  - reflexivity.
  - simpl. lia.
  - simpl. lia.
Defined.

(** X2: when [requests.get] itself raises a RequestException, the client
    returns no data and "A network error occurred: " followed by the text of
    the exception. *)
Theorem network_failure_is_network_error (env : environment) (city : string) (c : ascii)
    (k : string) (e : string) (w : world) :
  OPENWEATHER_API_KEY env = Some (String c k) ->
  requests_get env (api_url city (String c k)) = ConnectionFailed e ->
  get_weather_forecast env city w =
    (Ret (Tuple4 None None None (Some ("A network error occurred: " ++ e))),
     record (HttpGet (api_url city (String c k))) w).
Proof.
  intros Hkey Hget.
  rewrite (get_weather_forecast_configured env city c k w Hkey). cbv zeta.
  rewrite Hget. reflexivity.
Qed.

Lemma network_failure_is_network_error_witness :
  get_weather_forecast (answering (Some "secret") (ConnectionFailed "Connection refused"))
    "Paris" empty_world =
    (Ret (Tuple4 None None None (Some ("A network error occurred: " ++ "Connection refused"))),
     record (HttpGet (api_url "Paris" "secret")) empty_world).
Proof.
  apply (network_failure_is_network_error
           (answering (Some "secret") (ConnectionFailed "Connection refused"))
           "Paris" "s" "ecret" "Connection refused" empty_world);
    reflexivity.
Defined.

(** The messages of the [except] clauses are never empty. *)
Lemma weather_handler_message (city : string) (e : exn) (h : M forecast_result) (w : world) :
  weather_handler city e = Some h ->
  exists msg, msg <> "" /\ h w = (Ret (Tuple4 None None None (Some msg)), w).
Proof.
  unfold weather_handler.
  destruct (is_HTTPError e) as [st|].
  - destruct (st =? 404); intros [= <-]; eexists; (split; [|reflexivity]); discriminate.
  - destruct (is_RequestException e); intros [= <-]; eexists; (split; [|reflexivity]);
      discriminate.
Qed.

(** With a credential, whatever the upstream does and whether the client
    returns or raises, the world changes by one request only. *)
Lemma get_weather_forecast_world (env : environment) (city : string) (c : ascii)
    (k : string) (w : world) :
  OPENWEATHER_API_KEY env = Some (String c k) ->
  snd (get_weather_forecast env city w) = record (HttpGet (api_url city (String c k))) w.
Proof.
  intros Hkey.
  rewrite (get_weather_forecast_configured env city c k w Hkey). cbv zeta.
  destruct (requests_get env (api_url city (String c k))) as [e|r]; [reflexivity|].
  destruct (parse_response env r) as [res|e]; [reflexivity|].
  destruct (weather_handler city e) as [h|] eqn:Hh; [|reflexivity].
  destruct (weather_handler_error city e h
              (record (HttpGet (api_url city (String c k))) w) Hh) as (msg & ->).
  reflexivity.
Qed.

(** X3: with a credential the client makes exactly one request, to the
    forecast URL built from the city, the key and metric units, whether it
    then returns or raises; it stores nothing. *)
Theorem get_weather_forecast_one_request (env : environment) (city : string) (c : ascii)
    (k : string) (w : world) :
  OPENWEATHER_API_KEY env = Some (String c k) ->
  effects (get_weather_forecast env city) w =
    (trace w ++ [HttpGet ("http://api.openweathermap.org/data/2.5/forecast?q=" ++ city
                            ++ "&appid=" ++ String c k ++ "&units=metric")])%list
  /\ database_after (get_weather_forecast env city) w = stored w.
Proof.
  intros Hkey. unfold effects, database_after.
  rewrite (get_weather_forecast_world env city c k w Hkey). split; reflexivity.
Qed.

Lemma get_weather_forecast_one_request_witness :
  effects (get_weather_forecast
             (answering (Some "secret") (Responded (Response 200 "" (Ret JNull)))) "Paris")
    empty_world =
    [HttpGet "http://api.openweathermap.org/data/2.5/forecast?q=Paris&appid=secret&units=metric"].
Proof.
  apply (proj1 (get_weather_forecast_one_request
                  (answering (Some "secret") (Responded (Response 200 "" (Ret JNull))))
                  "Paris" "s" "ecret" empty_world eq_refl)).
Defined.

(** X4: with a credential, a result the client returns is a 4-tuple of one of
    two kinds, never a mix: forecasts, city info and document with no error,
    or no data at all with a non-empty error message. *)
Theorem get_weather_forecast_data_or_error (env : environment) (city : string) (c : ascii)
    (k : string) (w : world) (res : forecast_result) :
  OPENWEATHER_API_KEY env = Some (String c k) ->
  run (get_weather_forecast env city) w = Ret res ->
  (exists fs info data, res = Tuple4 (Some fs) (Some info) (Some data) None)
  \/ (exists msg, msg <> "" /\ res = Tuple4 None None None (Some msg)).
Proof.
  intros Hkey. unfold run.
  rewrite (get_weather_forecast_configured env city c k w Hkey). cbv zeta.
  destruct (requests_get env (api_url city (String c k))) as [e|r].
  - simpl. intros [= <-]. right. eexists. split; [|reflexivity]. discriminate.
  - destruct (parse_response env r) as [res'|e] eqn:Hp.
    + simpl. intros [= <-]. left.
      apply parse_response_Ret in Hp. destruct Hp as (data & fs & info & _ & -> & _).
      eauto.
    + destruct (weather_handler city e) as [h|] eqn:Hh; [|discriminate].
      destruct (weather_handler_message city e h
                  (record (HttpGet (api_url city (String c k))) w) Hh) as (msg & Hne & ->).
      simpl. intros [= <-]. right. eauto.
Qed.

Lemma get_weather_forecast_data_or_error_witness :
  let res := Tuple4 None None None (Some ("A network error occurred: " ++ "Connection refused")) in
  (exists fs info data, res = Tuple4 (Some fs) (Some info) (Some data) None)
  \/ (exists msg, msg <> "" /\ res = Tuple4 None None None (Some msg)).
Proof.
  intros res.
  apply (get_weather_forecast_data_or_error
           (answering (Some "secret") (ConnectionFailed "Connection refused"))
           "Paris" "s" "ecret" empty_world res);
    reflexivity.
Defined.

(** ** Weather client: what a success is made of *)

Lemma make_city_info_inv (data : json) (info : city_info) :
  make_city_info data = Ret info -> city_descriptor data = Some info.
Proof.
  unfold make_city_info, city_descriptor, py_getitem.
  destruct data as [| | | | |?|fields]; try discriminate.
  destruct (dict_get "city" fields) as [[| | | | |?|cf]|]; try discriminate.
  simpl. destruct (dict_get "name" cf) as [n|]; [|discriminate]. simpl.
  destruct (dict_get "country" cf) as [co|]; [|discriminate]. simpl.
  intros [= <-]. reflexivity.
Qed.

(** X5: a success carries the document exactly as [response.json()] gave it,
    the name and country of the document's 'city' object, and no error. *)
Theorem success_carries_document_and_city (env : environment) (city : string) (c : ascii)
    (k : string) (r : response) (w : world) (fs : list forecast_entry)
    (info : option city_info) (raw : option json) (err : option string) :
  OPENWEATHER_API_KEY env = Some (String c k) ->
  requests_get env (api_url city (String c k)) = Responded r ->
  run (get_weather_forecast env city) w = Ret (Tuple4 (Some fs) info raw err) ->
  exists data i,
    json_result r = Ret data /\ raw = Some data /\
    info = Some i /\ city_descriptor data = Some i /\ err = None.
Proof.
  intros Hkey Hget Hrun.
  apply (get_weather_forecast_success env city c k r w) in Hrun; try assumption.
  apply parse_response_Ret in Hrun.
  destruct Hrun as (data & fs' & i & Hjson & Hres & _ & Hcity).
  injection Hres as _ -> -> ->.
  exists data, i. repeat split; try assumption; try reflexivity.
  apply make_city_info_inv, Hcity.
Qed.

Lemma success_carries_document_and_city_witness :
  let data := forecast_document
                [midday_sample 1704110400 (JInt 7) "light rain" "10d"] in
  let r := Response 200 "" (Ret data) in
  exists data' i,
    json_result r = Ret data' /\ Some data = Some data' /\
    Some {| name := JStr "Paris"; country := JStr "FR" |} = Some i /\
    city_descriptor data' = Some i /\ @None string = None.
Proof.
  intros data r.
  apply (success_carries_document_and_city (answering (Some "secret") (Responded r))
           "Paris" "s" "ecret" r empty_world
           [ {| date := "Monday, Jan 01"; temp := 7; description := "Light Rain";
                icon := JStr "10d" |} ]);
    reflexivity.
Defined.

(** X6: the loop looks at nothing but 'dt_txt' in a sample it does not keep:
    when every sample has a timestamp text, the entries are those of the
    midday samples alone. *)
Theorem entries_depend_on_midday_samples_only (env : environment) (samples : list json) :
  forallb has_timestamp_text samples = true ->
  forall acc,
    process_forecasts env samples acc =
    process_forecasts env (List.filter is_midday_sample samples) acc.
Proof.
  induction samples as [|s rest IH]; simpl; intros Htext acc; [reflexivity|].
  apply andb_prop in Htext. destruct Htext as [Hs Hrest].
  unfold has_timestamp_text in Hs.
  destruct (timestamp_text s) as [t|] eqn:Ht; [|discriminate].
  unfold is_midday_sample at 1. rewrite Ht.
  assert (Hget : py_getitem s "dt_txt" = Ret (JStr t)).
  { unfold timestamp_text in Ht. unfold py_getitem.
    destruct s as [| | | | |?|fields]; try discriminate.
    destruct (dict_get "dt_txt" fields) as [[]|]; try discriminate.
    injection Ht as ->. reflexivity. }
  rewrite Hget. simpl.
  destruct (str_contains "12:00:00" t) eqn:Hmid.
  - simpl. rewrite Hget. simpl. rewrite Hmid.
    destruct (make_entry env s) as [e|e]; simpl; [|reflexivity].
    apply IH, Hrest.
  - apply IH, Hrest.
Qed.

Lemma entries_depend_on_midday_samples_only_witness :
  let env := answering (Some "secret") (ConnectionFailed "unreachable") in
  let incomplete := JObj [("dt_txt", JStr "2024-01-01 09:00:00")] in
  let midday := midday_sample 1704110400 (JInt 7) "light rain" "10d" in
  process_forecasts env [incomplete; midday; incomplete] [] =
  process_forecasts env [midday] [].
Proof.
  intros env incomplete midday.
  apply (entries_depend_on_midday_samples_only env [incomplete; midday; incomplete]).
  reflexivity.
Defined.

(** ** Weather client: answers it cannot parse *)

Lemma raise_for_status_passes (r : response) :
  status_passes r = true -> raise_for_status r = Ret tt.
Proof.
  unfold status_passes, raise_for_status.
  destruct ((400 <=? status_code r) && (status_code r <? 600)); [discriminate | reflexivity].
Qed.

(** X7: a passing answer whose body is a JSON value other than an object
    (a list, a string, a number, null) makes the client raise AttributeError,
    whose text names the type of the value: the value has no [get] method and
    no [except] clause matches. *)
Theorem non_object_body_raises (env : environment) (city : string) (c : ascii)
    (k : string) (r : response) (data : json) (w : world) :
  OPENWEATHER_API_KEY env = Some (String c k) ->
  requests_get env (api_url city (String c k)) = Responded r ->
  status_passes r = true ->
  json_result r = Ret data ->
  is_object data = false ->
  get_weather_forecast env city w =
    (Raise (Exn AttributeError
              ("'" ++ py_type_name data ++ "' object has no attribute 'get'")),
     record (HttpGet (api_url city (String c k))) w).
Proof.
  intros Hkey Hget Hst Hjson Hobj.
  rewrite (get_weather_forecast_configured env city c k w Hkey). cbv zeta. rewrite Hget.
  unfold parse_response. rewrite (raise_for_status_passes r Hst), Hjson.
  destruct data; try discriminate; reflexivity.
Qed.

Lemma non_object_body_raises_witness :
  let r := Response 200 "" (Ret (JArr [])) in
  get_weather_forecast (answering (Some "secret") (Responded r)) "Paris" empty_world =
    (Raise (Exn AttributeError "'list' object has no attribute 'get'"),
     record (HttpGet (api_url "Paris" "secret")) empty_world).
Proof.
  intros r.
  apply (non_object_body_raises (answering (Some "secret") (Responded r))
           "Paris" "s" "ecret" r (JArr []) empty_world);
    reflexivity.
Defined.

(** X8: the 'city' object is read after the loop: a passing answer whose
    samples all parse but which has no 'city' key makes the client raise
    KeyError('city'), and the entries built so far are lost. *)
Theorem missing_city_raises (env : environment) (city : string) (c : ascii)
    (k : string) (r : response) (fields : list (string * json)) (w : world) :
  OPENWEATHER_API_KEY env = Some (String c k) ->
  requests_get env (api_url city (String c k)) = Responded r ->
  status_passes r = true ->
  json_result r = Ret (JObj fields) ->
  has_sample_list (JObj fields) = true ->
  forallb (sample_complete env) (samples_of (JObj fields)) = true ->
  dict_get "city" fields = None ->
  get_weather_forecast env city w =
    (Raise (Exn KeyError "'city'"), record (HttpGet (api_url city (String c k))) w).
Proof.
  intros Hkey Hget Hst Hjson Hlist Hsamples Hcity.
  rewrite (get_weather_forecast_configured env city c k w Hkey). cbv zeta. rewrite Hget.
  unfold parse_response. rewrite (raise_for_status_passes r Hst), Hjson.
  remember (JObj fields) as data eqn:Hdata.
  cbn [mbind outcome_bind].
  pose proof (samples_iterated data Hlist) as Hiter.
  destruct (py_dict_get data "list" (JArr [])) as [l|]; simpl in Hiter |- *; [|discriminate].
  rewrite Hiter. cbn [mbind outcome_bind].
  destruct (process_forecasts_total env _ Hsamples []) as (fs & ->).
  cbn [mbind outcome_bind].
  subst data. unfold make_city_info, py_getitem. rewrite Hcity. reflexivity.
Qed.

Lemma missing_city_raises_witness :
  let fields := [("list", JArr [midday_sample 1704110400 (JInt 7) "light rain" "10d"])] in
  let r := Response 200 "" (Ret (JObj fields)) in
  get_weather_forecast (answering (Some "secret") (Responded r)) "Paris" empty_world =
    (Raise (Exn KeyError "'city'"), record (HttpGet (api_url "Paris" "secret")) empty_world).
Proof.
  intros fields r.
  apply (missing_city_raises (answering (Some "secret") (Responded r))
           "Paris" "s" "ecret" r fields empty_world);
    reflexivity.
Defined.

(** X9: only 4xx and 5xx statuses are failures for the client: a well-formed
    document that comes with any other status (a 304, say) is returned as a
    success. *)
Theorem passing_status_is_parsed (env : environment) (city : string) (c : ascii)
    (k : string) (r : response) (data : json) (w : world) :
  OPENWEATHER_API_KEY env = Some (String c k) ->
  requests_get env (api_url city (String c k)) = Responded r ->
  status_code r < 400 \/ 600 <= status_code r ->
  json_result r = Ret data ->
  well_formed env data = true ->
  exists fs info,
    run (get_weather_forecast env city) w =
      Ret (Tuple4 (Some fs) (Some info) (Some data) None).
Proof.
  intros Hkey Hget Hst Hjson Hwf.
  assert (Hpass : status_passes r = true).
  { unfold status_passes.
    destruct (400 <=? status_code r) eqn:E1; [|reflexivity].
    destruct (status_code r <? 600) eqn:E2; [|reflexivity].
    apply Z.leb_le in E1. apply Z.ltb_lt in E2. lia. }
  unfold well_formed in Hwf.
  apply andb_prop in Hwf. destruct Hwf as [Hwf Hcity].
  apply andb_prop in Hwf. destruct Hwf as [Hlist Hsamples].
  destruct (city_descriptor data) as [info|] eqn:Hinfo; [|discriminate].
  destruct (process_forecasts_total env _ Hsamples []) as (fs & Hfs).
  exists fs, info.
  unfold run. rewrite (get_weather_forecast_configured env city c k w Hkey).
  cbv zeta. rewrite Hget.
  unfold parse_response. rewrite (raise_for_status_passes r Hpass), Hjson.
  cbn [mbind outcome_bind].
  pose proof (samples_iterated data Hlist) as Hiter.
  destruct (py_dict_get data "list" (JArr [])) as [l|]; simpl in Hiter |- *; [|discriminate].
  rewrite Hiter. cbn [mbind outcome_bind]. rewrite Hfs. cbn [mbind outcome_bind].
  rewrite (make_city_info_descriptor data info Hinfo). reflexivity.
Qed.

Lemma passing_status_is_parsed_witness :
  let data := forecast_document [midday_sample 1704110400 (JInt 7) "light rain" "10d"] in
  let r := Response 304 "" (Ret data) in
  exists fs info,
    run (get_weather_forecast (answering (Some "secret") (Responded r)) "Paris") empty_world =
      Ret (Tuple4 (Some fs) (Some info) (Some data) None).
Proof.
  intros data r.
  apply (passing_status_is_parsed (answering (Some "secret") (Responded r))
           "Paris" "s" "ecret" r data empty_world).
  - reflexivity.
  - reflexivity.
  - left. simpl. lia.
  - reflexivity.
  - reflexivity.
Defined.

(** ** Weather client: rounding *)

From Stdlib Require Import Lqa.

Lemma round_half_even_bound (q : Q) :
  (inject_Z (round_half_even q) - q <= 1 # 2 /\ q - inject_Z (round_half_even q) <= 1 # 2)%Q.
Proof.
  unfold round_half_even.
  pose proof (Qfloor_le q) as Hlo. pose proof (Qlt_floor q) as Hhi.
  rewrite inject_Z_plus in Hhi. change (inject_Z 1) with 1%Q in Hhi.
  destruct (Qcompare (q - inject_Z (Qfloor q)) (1 # 2)) eqn:Hc.
  - apply Qeq_alt in Hc.
    destruct (Z.even (Qfloor q));
      [|rewrite inject_Z_plus; change (inject_Z 1) with 1%Q]; split; lra.
  - apply Qlt_alt in Hc. split; lra.
  - apply Qgt_alt in Hc. rewrite inject_Z_plus. change (inject_Z 1) with 1%Q. split; lra.
Qed.

(** X10: the temperature of an entry built from a sample whose 'main.temp'
    is a finite float is within half a degree of that float. *)
Theorem entry_temperature_within_half_degree (env : environment) (s main : json)
    (q : Q) (e : forecast_entry) :
  make_entry env s = Ret e ->
  py_getitem s "main" = Ret main ->
  py_getitem main "temp" = Ret (JFloat (Finite q)) ->
  (inject_Z (temp e) - q <= 1 # 2 /\ q - inject_Z (temp e) <= 1 # 2)%Q.
Proof.
  intros He Hmain Htemp.
  apply make_entry_follows in He.
  destruct He as (main' & t & weather & w0 & d & Hmain' & Ht & Hround & _).
  rewrite Hmain in Hmain'. injection Hmain' as <-.
  rewrite Htemp in Ht. injection Ht as <-.
  simpl in Hround. injection Hround as <-.
  apply round_half_even_bound.
Qed.

Lemma entry_temperature_within_half_degree_witness :
  (inject_Z 21 - twenty_point_six <= 1 # 2 /\ twenty_point_six - inject_Z 21 <= 1 # 2)%Q.
Proof.
  apply (entry_temperature_within_half_degree
           (answering (Some "secret") (ConnectionFailed "unreachable"))
           (midday_sample 1704110400 (JFloat (Finite twenty_point_six)) "clear sky" "01d")
           (JObj [("temp", JFloat (Finite twenty_point_six))])
           twenty_point_six
           {| date := "Monday, Jan 01"; temp := 21; description := "Clear Sky";
              icon := JStr "01d" |});
    reflexivity.
Defined.

(** ** Display handler: outcomes *)

(** The handler after validation: the client's call, the unpacking, then
    flash and redirect, or render. *)
Lemma index_valid_form (env : environment) (req : request) (w : world) (c1 c2 : ascii)
    (n ci : string) :
  method req = "POST" ->
  form req !! "name" = Some (String c1 n) ->
  form req !! "city" = Some (String c2 ci) ->
  index env req w =
    match get_weather_forecast env (String c2 ci) w with
    | (Ret (Tuple4 forecasts info raw_data (Some (String m msg))), w') =>
        (Ret (Redirect "index"), record (Flash (String m msg) "error") w')
    | (Ret (Tuple4 forecasts info raw_data _), w') =>
        (Ret (RenderTemplate "index.html"
                (Some {| ctx_forecasts := forecasts; ctx_city_info := info;
                         ctx_user_name := String c1 n; ctx_raw_data_for_db := raw_data |})),
         w')
    | (Ret (Tuple2 _ _), w') =>
        (Raise (Exn ValueError "not enough values to unpack (expected 4, got 2)"), w')
    | (Raise e, w') => (Raise e, w')
    end.
Proof.
  intros Hm Hn Hc. unfold index. rewrite Hm, Hn, Hc. simpl. unfold bind.
  destruct (get_weather_forecast env (String c2 ci) w) as [[res|e] w']; [|reflexivity].
  destruct res as [f msg|f i d [[|m msg]|]]; reflexivity.
Qed.

(** X11: for a valid form and a configured key, a failed upstream (request
    failed, or 4xx / 5xx status) never makes the handler raise: it flashes the
    client's message with category "error" and redirects to the form. *)
Theorem index_flashes_upstream_failure (env : environment) (req : request) (w : world)
    (c1 c2 c : ascii) (n ci k : string) :
  method req = "POST" ->
  form req !! "name" = Some (String c1 n) ->
  form req !! "city" = Some (String c2 ci) ->
  OPENWEATHER_API_KEY env = Some (String c k) ->
  upstream_failed (requests_get env (api_url (String c2 ci) (String c k))) = true ->
  index env req w =
    (Ret (Redirect "index"),
     record (Flash (failure_message (String c2 ci)
                      (requests_get env (api_url (String c2 ci) (String c k)))) "error")
       (record (HttpGet (api_url (String c2 ci) (String c k))) w)).
Proof.
  intros Hm Hn Hc Hkey Hfail.
  rewrite (index_valid_form env req w c1 c2 n ci Hm Hn Hc).
  rewrite (get_weather_forecast_configured env (String c2 ci) c k w Hkey). cbv zeta.
  destruct (requests_get env (api_url (String c2 ci) (String c k))) as [e|r]; simpl.
  - reflexivity.
  - simpl in Hfail. apply andb_prop in Hfail. destruct Hfail as [Hlo Hhi].
    apply Z.leb_le in Hlo. apply Z.ltb_lt in Hhi.
    rewrite parse_response_http_error by lia.
    unfold weather_handler, is_HTTPError. simpl.
    destruct (status_code r =? 404); reflexivity.
Qed.

Lemma index_flashes_upstream_failure_witness :
  index (answering (Some "secret") (Responded (Response 401 "401 Client Error: Unauthorized" (Ret JNull))))
        (post [("name", "Alice"); ("city", "Paris")]) empty_world =
    (Ret (Redirect "index"),
     {| stored := ∅;
        trace := [HttpGet (api_url "Paris" "secret");
                  Flash "An API error occurred: 401 Client Error: Unauthorized" "error"] |}).
Proof.
  apply (index_flashes_upstream_failure
           (answering (Some "secret")
              (Responded (Response 401 "401 Client Error: Unauthorized" (Ret JNull))))
           (post [("name", "Alice"); ("city", "Paris")]) empty_world
           "A" "P" "s" "lice" "aris" "ecret");
    reflexivity.
Defined.

(** X12: for a valid form, a configured key and a well-formed document with
    a passing status, the handler renders index.html with the entries (one per
    midday sample), the city of the document, the user name as submitted and
    the document itself for the save form; it flashes nothing. *)
Theorem index_renders_forecast (env : environment) (req : request) (w : world)
    (c1 c2 c : ascii) (n ci k : string) (r : response) (data : json) :
  method req = "POST" ->
  form req !! "name" = Some (String c1 n) ->
  form req !! "city" = Some (String c2 ci) ->
  OPENWEATHER_API_KEY env = Some (String c k) ->
  requests_get env (api_url (String c2 ci) (String c k)) = Responded r ->
  200 <= status_code r < 300 ->
  json_result r = Ret data ->
  well_formed env data = true ->
  exists fs info,
    index env req w =
      (Ret (RenderTemplate "index.html"
              (Some {| ctx_forecasts := Some fs; ctx_city_info := Some info;
                       ctx_user_name := String c1 n; ctx_raw_data_for_db := Some data |})),
       record (HttpGet (api_url (String c2 ci) (String c k))) w)
    /\ length fs = length (List.filter kept (samples_of data))
    /\ city_descriptor data = Some info.
Proof.
  intros Hm Hn Hc Hkey Hget Hst Hjson Hwf.
  destruct (parse_response_total env r data Hst Hjson Hwf) as (fs & info & Hp & Hfs & Hinfo).
  exists fs, info. split; [|split; [|assumption]].
  - rewrite (index_valid_form env req w c1 c2 n ci Hm Hn Hc).
    rewrite (get_weather_forecast_configured env (String c2 ci) c k w Hkey). cbv zeta.
    rewrite Hget, Hp. reflexivity.
  - apply process_forecasts_inv in Hfs. destruct Hfs as (_ & new & -> & Hnew).
    simpl. symmetry. eapply Forall2_length; eassumption.
Qed.

Lemma index_renders_forecast_witness :
  let data := forecast_document
                [ upstream_sample 1704099600 "2024-01-01 09:00:00" (JInt 3) "light rain" "10d";
                  midday_sample 1704110400 (JInt 7) "clear sky" "01d" ] in
  let env := answering (Some "secret") (Responded (Response 200 "" (Ret data))) in
  exists fs info,
    index env (post [("name", "Alice"); ("city", "Paris")]) empty_world =
      (Ret (RenderTemplate "index.html"
              (Some {| ctx_forecasts := Some fs; ctx_city_info := Some info;
                       ctx_user_name := "Alice"; ctx_raw_data_for_db := Some data |})),
       record (HttpGet (api_url "Paris" "secret")) empty_world)
    /\ length fs = length (List.filter kept (samples_of data))
    /\ city_descriptor data = Some info.
Proof.
  intros data env.
  apply (index_renders_forecast env (post [("name", "Alice"); ("city", "Paris")]) empty_world
           "A" "P" "s" "lice" "aris" "ecret" (Response 200 "" (Ret data)) data).
  - reflexivity.
  - reflexivity.
  - reflexivity.
  - reflexivity.
  - reflexivity.
  - simpl. lia.
  - reflexivity.
  - reflexivity.
Defined.

(** The client changes the world by at most one request, whatever the
    configuration. *)
Lemma get_weather_forecast_requests (env : environment) (city : string) (w : world) :
  exists reqs,
    snd (get_weather_forecast env city w) =
      {| stored := stored w; trace := trace w ++ reqs |}
    /\ forallb is_http_event reqs = true /\ (length reqs <= 1)%nat.
Proof.
  destruct (OPENWEATHER_API_KEY env) as [[|c k]|] eqn:Hkey.
  - exists []. rewrite get_weather_forecast_unconfigured by (rewrite Hkey; reflexivity).
    simpl. rewrite app_nil_r. destruct w; auto.
  - exists [HttpGet (api_url city (String c k))].
    rewrite (get_weather_forecast_world env city c k w Hkey). simpl. auto.
  - exists []. rewrite get_weather_forecast_unconfigured by (rewrite Hkey; reflexivity).
    simpl. rewrite app_nil_r. destruct w; auto.
Qed.

(** X13: whatever the request, the configuration and the upstream, the
    display handler leaves the stored relations alone and its effects are at
    most one request followed by at most one flash; when it raises, it has
    flashed nothing. *)
Theorem index_effects (env : environment) (req : request) (w : world) :
  exists reqs flashes,
    snd (index env req w) =
      {| stored := stored w; trace := (trace w ++ reqs) ++ flashes |}
    /\ forallb is_http_event reqs = true /\ (length reqs <= 1)%nat
    /\ forallb is_flash_event flashes = true /\ (length flashes <= 1)%nat
    /\ (forall e, run (index env req) w = Raise e -> flashes = []).
Proof.
  assert (Hw : w = {| stored := stored w; trace := (trace w ++ []) ++ [] |}).
  { rewrite !app_nil_r. destruct w; reflexivity. }
  destruct (String.eqb (method req) "POST") eqn:Hm.
  2:{ exists [], []. unfold run, index. rewrite Hm. simpl.
      split; [exact Hw|]. repeat split; auto. }
  destruct (form req !! "name") as [[|c1 n]|] eqn:Hn;
    destruct (form req !! "city") as [[|c2 ci]|] eqn:Hc.
  1-4,6-9:
    exists [], [Flash "Please enter both your name and a city." "error"];
    unfold run, index; rewrite Hm; simpl; rewrite ?Hn, ?Hc; simpl; rewrite app_nil_r;
    repeat split; auto; discriminate.
  apply String.eqb_eq in Hm.
  destruct (get_weather_forecast_requests env (String c2 ci) w) as (reqs & Hworld & Hreqs & Hlen).
  unfold run. rewrite (index_valid_form env req w c1 c2 n ci Hm Hn Hc).
  destruct (get_weather_forecast env (String c2 ci) w) as [[res|e] w']; simpl in Hworld; subst w'.
  - destruct res as [f msg|f i d [[|m msg]|]].
    + exists reqs, []. simpl. rewrite app_nil_r. repeat split; auto.
    + exists reqs, []. simpl. rewrite app_nil_r. repeat split; auto.
    + exists reqs, [Flash (String m msg) "error"]. simpl. repeat split; auto. discriminate.
    + exists reqs, []. simpl. rewrite app_nil_r. repeat split; auto.
  - exists reqs, []. simpl. rewrite app_nil_r. repeat split; auto.
Qed.

Lemma index_effects_witness :
  let env := answering None (ConnectionFailed "unreachable") in
  let req := post [("name", "Alice"); ("city", "Paris")] in
  exists reqs flashes,
    snd (index env req empty_world) =
      {| stored := stored empty_world; trace := (trace empty_world ++ reqs) ++ flashes |}
    /\ forallb is_http_event reqs = true /\ (length reqs <= 1)%nat
    /\ forallb is_flash_event flashes = true /\ (length flashes <= 1)%nat
    /\ (forall e, run (index env req) empty_world = Raise e -> flashes = []).
Proof.
  intros env req. apply (index_effects env req empty_world).
Defined.

(** ** Forecast store: an accepted insert *)

(** When no call fails and the table exists, the row is appended and
    committed. *)
Lemma save_forecast_to_db_accepted (env : environment) (user_name city : string)
    (forecast_data : json) (w : world) (t : table) :
  insert_succeeds env (InsertForecast user_name city forecast_data) = true ->
  stored w !! "forecasts" = Some t ->
  save_forecast_to_db env user_name city forecast_data w =
    (Ret (true, "Forecast saved successfully!"),
     {| stored := <["forecasts" := append_row (new_row env user_name city forecast_data) t]>
                    (stored w);
        trace := trace w ++ [DbConnect (DATABASE_URL env); DbCursor;
                             DbExecute (InsertForecast user_name city forecast_data);
                             DbCursorClose; DbCommit; DbClose] |}).
Proof.
  unfold insert_succeeds. intros Hok Ht.
  rewrite save_forecast_to_db_eq. cbv zeta.
  destruct (psycopg2_connect env (DATABASE_URL env)); [discriminate|].
  rewrite insert_attempt_eq. cbv zeta.
  destruct (cursor_fault env); [discriminate|].
  destruct (execute_fault env _); [discriminate|].
  destruct (commit_fault env); [discriminate|].
  unfold run_statement, record. simpl. rewrite Ht. simpl.
  rewrite <- !app_assoc. reflexivity.
Qed.

(** X14: a save submission with non-empty fields and valid JSON, when the
    table exists and no database call fails, appends one row holding the user
    name, the city, the parsed document and the current timestamp, keeps the
    rows and columns that were there, flashes the success message and
    redirects to the form. *)
Theorem save_forecast_stores_row (env : environment) (req : request) (w : world)
    (c1 c2 c3 : ascii) (u ci raw : string) (d : json) (t : table) :
  form req !! "user_name" = Some (String c1 u) ->
  form req !! "city" = Some (String c2 ci) ->
  form req !! "raw_data" = Some (String c3 raw) ->
  json_loads env (String c3 raw) = Ret d ->
  insert_succeeds env (InsertForecast (String c1 u) (String c2 ci) d) = true ->
  stored w !! "forecasts" = Some t ->
  save_forecast env req w =
    (Ret (Redirect "index"),
     {| stored := <["forecasts" :=
                     Table (columns t)
                       (rows t ++ [SavedForecast (String c1 u) (String c2 ci) d
                                     (CURRENT_TIMESTAMP env)])]> (stored w);
        trace := trace w ++ [DbConnect (DATABASE_URL env); DbCursor;
                             DbExecute (InsertForecast (String c1 u) (String c2 ci) d);
                             DbCursorClose; DbCommit; DbClose;
                             Flash "Forecast saved successfully!" "success"] |}).
Proof.
  intros Hu Hc Hraw Hjson Hok Ht.
  unfold save_forecast. rewrite Hu, Hc, Hraw.
  unfold try_except, bind at 1 2 3, lift, py_json_loads. rewrite Hjson.
  rewrite (save_forecast_to_db_accepted env _ _ d w t Hok Ht).
  unfold emit, ret. simpl. rewrite <- !app_assoc. reflexivity.
Qed.

Lemma save_forecast_stores_row_witness :
  let env := with_database (Some "postgresql://app@localhost:5432/weather") None None None in
  let w := {| stored := {["forecasts" := Table forecasts_columns []]}; trace := [] |} in
  save_forecast env (post [("user_name", "Alice"); ("city", "Paris"); ("raw_data", "{}")]) w =
    (Ret (Redirect "index"),
     {| stored := <["forecasts" :=
                     Table forecasts_columns
                       [SavedForecast "Alice" "Paris" (JObj []) 1704106800]]> (stored w);
        trace := [DbConnect (Some "postgresql://app@localhost:5432/weather"); DbCursor;
                  DbExecute (InsertForecast "Alice" "Paris" (JObj []));
                  DbCursorClose; DbCommit; DbClose;
                  Flash "Forecast saved successfully!" "success"] |}).
Proof.
  intros env w.
  apply (save_forecast_stores_row env
           (post [("user_name", "Alice"); ("city", "Paris"); ("raw_data", "{}")]) w
           "A" "P" "{" "lice" "aris" "}" (JObj []) (Table forecasts_columns []));
    reflexivity.
Defined.

(** X15: saving before the table exists is a write failure: the insert is
    rolled back, the connection closed, nothing is stored and the result is
    (False, "Failed to save forecast due to a database error."). *)
Theorem save_without_table_fails (env : environment) (user_name city : string)
    (forecast_data : json) (w : world) :
  insert_succeeds env (InsertForecast user_name city forecast_data) = true ->
  rollback_fault env = None ->
  stored w !! "forecasts" = None ->
  exists text,
    save_forecast_to_db env user_name city forecast_data w =
      (Ret (false, "Failed to save forecast due to a database error."),
       {| stored := stored w;
          trace := trace w ++ [DbConnect (DATABASE_URL env); DbCursor;
                               DbExecute (InsertForecast user_name city forecast_data);
                               DbCursorClose; DbRollback; Print text; DbClose] |}).
Proof.
  unfold insert_succeeds. intros Hok Hrb Ht.
  rewrite save_forecast_to_db_eq. cbv zeta.
  destruct (psycopg2_connect env (DATABASE_URL env)); [discriminate|].
  rewrite insert_attempt_eq. cbv zeta.
  destruct (cursor_fault env); [discriminate|].
  destruct (execute_fault env _); [discriminate|].
  unfold run_statement, record. simpl. rewrite Ht, Hrb. simpl.
  eexists. rewrite <- !app_assoc. reflexivity.
Qed.

Lemma save_without_table_fails_witness :
  let env := with_database (Some "postgresql://app@localhost:5432/weather") None None None in
  exists text,
    save_forecast_to_db env "Alice" "Paris" (JObj []) empty_world =
      (Ret (false, "Failed to save forecast due to a database error."),
       {| stored := stored empty_world;
          trace := trace empty_world ++
                     [DbConnect (DATABASE_URL env); DbCursor;
                      DbExecute (InsertForecast "Alice" "Paris" (JObj []));
                      DbCursorClose; DbRollback; Print text; DbClose] |}).
Proof.
  intros env.
  apply (save_without_table_fails env "Alice" "Paris" (JObj []) empty_world); reflexivity.
Defined.

(** X16: [init_db] followed by a save, with no failing database call: the
    save succeeds whatever was stored before, and the forecasts table then
    holds the rows it had after [init_db] followed by the new row. *)
Theorem init_db_then_save (env : environment) (user_name city : string)
    (forecast_data : json) (w : world) :
  init_db_succeeds env = true ->
  insert_succeeds env (InsertForecast user_name city forecast_data) = true ->
  exists t,
    stored (call (init_db env) w) !! "forecasts" = Some t
    /\ (stored w !! "forecasts" = None -> t = Table forecasts_columns [])
    /\ run (save_forecast_to_db env user_name city forecast_data) (call (init_db env) w)
         = Ret (true, "Forecast saved successfully!")
    /\ database_after (save_forecast_to_db env user_name city forecast_data)
         (call (init_db env) w) !! "forecasts"
         = Some (Table (columns t)
                   (rows t ++ [SavedForecast user_name city forecast_data
                                 (CURRENT_TIMESTAMP env)])).
Proof.
  intros Hinit Hins.
  assert (Hex : exists t, stored (call (init_db env) w) !! "forecasts" = Some t
                          /\ (stored w !! "forecasts" = None -> t = Table forecasts_columns [])).
  { rewrite init_db_stored, Hinit. unfold ensure_forecasts.
    destruct (stored w !! "forecasts") as [t|] eqn:Ht.
    - exists t. split; [assumption | discriminate].
    - exists (Table forecasts_columns []). split; [apply lookup_insert_eq | reflexivity]. }
  destruct Hex as (t & Ht & Hnew). exists t.
  split; [assumption|]. split; [assumption|].
  unfold run, database_after.
  rewrite (save_forecast_to_db_accepted env _ _ _ _ t Hins Ht). simpl.
  split; [reflexivity | apply lookup_insert_eq].
Qed.

Lemma init_db_then_save_witness :
  let env := with_database (Some "postgresql://app@localhost:5432/weather") None None None in
  exists t,
    stored (call (init_db env) empty_world) !! "forecasts" = Some t
    /\ (stored empty_world !! "forecasts" = None -> t = Table forecasts_columns [])
    /\ run (save_forecast_to_db env "Alice" "Paris" (JObj [])) (call (init_db env) empty_world)
         = Ret (true, "Forecast saved successfully!")
    /\ database_after (save_forecast_to_db env "Alice" "Paris" (JObj []))
         (call (init_db env) empty_world) !! "forecasts"
         = Some (Table (columns t)
                   (rows t ++ [SavedForecast "Alice" "Paris" (JObj [])
                                 (CURRENT_TIMESTAMP env)])).
Proof.
  intros env.
  apply (init_db_then_save env "Alice" "Paris" (JObj []) empty_world); reflexivity.
Defined.

(** X17: nothing deduplicates: two successive saves of the same user name,
    city and document, each with no failing database call, both succeed, and
    the table then holds the rows that were there followed by two rows, one
    per save, each with the user name, the city, the document and the
    timestamp of its own save. *)
Theorem identical_saves_store_two_rows (env1 env2 : environment) (user_name city : string)
    (forecast_data : json) (w : world) (t : table) :
  insert_succeeds env1 (InsertForecast user_name city forecast_data) = true ->
  insert_succeeds env2 (InsertForecast user_name city forecast_data) = true ->
  stored w !! "forecasts" = Some t ->
  let first := save_forecast_to_db env1 user_name city forecast_data in
  let second := save_forecast_to_db env2 user_name city forecast_data in
  run first w = Ret (true, "Forecast saved successfully!")
  /\ run second (call first w) = Ret (true, "Forecast saved successfully!")
  /\ database_after second (call first w) !! "forecasts"
       = Some (Table (columns t)
                 (rows t ++ [SavedForecast user_name city forecast_data
                               (CURRENT_TIMESTAMP env1);
                             SavedForecast user_name city forecast_data
                               (CURRENT_TIMESTAMP env2)])).
Proof.
  intros Hins1 Hins2 Ht first second. unfold first, second, run, database_after, call.
  rewrite (save_forecast_to_db_accepted env1 _ _ _ w t Hins1 Ht). simpl.
  split; [reflexivity|].
  erewrite save_forecast_to_db_accepted;
    [| exact Hins2 | simpl; apply lookup_insert_eq].
  simpl. split; [reflexivity|].
  rewrite lookup_insert_eq. unfold append_row, new_row. simpl.
  rewrite <- app_assoc. reflexivity.
Qed.

Lemma identical_saves_store_two_rows_witness :
  let env1 := at_time 1704106800 in
  let env2 := at_time 1704106860 in
  let w := {| stored := {["forecasts" := Table forecasts_columns []]}; trace := [] |} in
  let first := save_forecast_to_db env1 "Alice" "Paris" (JObj []) in
  let second := save_forecast_to_db env2 "Alice" "Paris" (JObj []) in
  run first w = Ret (true, "Forecast saved successfully!")
  /\ run second (call first w) = Ret (true, "Forecast saved successfully!")
  /\ database_after second (call first w) !! "forecasts"
       = Some (Table forecasts_columns
                 [SavedForecast "Alice" "Paris" (JObj []) 1704106800;
                  SavedForecast "Alice" "Paris" (JObj []) 1704106860]).
Proof.
  intros env1 env2 w.
  apply (identical_saves_store_two_rows env1 env2 "Alice" "Paris" (JObj []) w
           (Table forecasts_columns [])); reflexivity.
Defined.

(** ** Forecast store: bootstrap outcomes *)

(** X18: when the connection fails with OperationalError, [init_db] prints
    the two messages and returns normally; it opens no cursor and stores
    nothing. *)
Theorem init_db_connection_failure_returns (env : environment) (w : world) (e : exn) :
  psycopg2_connect env (DATABASE_URL env) = Some e ->
  is_OperationalError e = true ->
  init_db env w =
    (Ret tt,
     {| stored := stored w;
        trace := trace w ++ [DbConnect (DATABASE_URL env);
                             Print ("Error connecting to the database: " ++ exn_str e);
                             Print "Could not initialize database. Connection failed."] |}).
Proof.
  intros Hc Hop. unfold init_db. unfold bind at 1.
  rewrite get_db_connection_eq, Hc, Hop. cbv zeta.
  unfold emit, record. simpl. rewrite <- !app_assoc. reflexivity.
Qed.

Lemma init_db_connection_failure_returns_witness :
  let e := Exn OperationalError "could not connect to server" in
  let env := with_database (Some "postgresql://app@localhost:5432/weather") (Some e) None None in
  init_db env empty_world =
    (Ret tt,
     {| stored := stored empty_world;
        trace := trace empty_world ++
                   [DbConnect (DATABASE_URL env);
                    Print ("Error connecting to the database: " ++ exn_str e);
                    Print "Could not initialize database. Connection failed."] |}).
Proof.
  intros e env.
  apply (init_db_connection_failure_returns env empty_world e); reflexivity.
Defined.

(** X19: when [psycopg2.connect] raises anything other than
    OperationalError, neither [init_db] nor [save_forecast_to_db] handles it:
    both raise that exception right after the connection attempt. *)
Theorem connect_exception_propagates (env : environment) (user_name city : string)
    (forecast_data : json) (w : world) (e : exn) :
  psycopg2_connect env (DATABASE_URL env) = Some e ->
  is_OperationalError e = false ->
  init_db env w = (Raise e, record (DbConnect (DATABASE_URL env)) w)
  /\ save_forecast_to_db env user_name city forecast_data w =
       (Raise e, record (DbConnect (DATABASE_URL env)) w).
Proof.
  intros Hc Hop. split.
  - unfold init_db. unfold bind at 1.
    rewrite get_db_connection_eq, Hc, Hop. reflexivity.
  - rewrite save_forecast_to_db_eq, Hc, Hop. reflexivity.
Qed.

Lemma connect_exception_propagates_witness :
  let e := Exn Psycopg2Error invalid_dsn_text in
  let env := with_database (Some "not a connection string") (Some e) None None in
  init_db env empty_world = (Raise e, record (DbConnect (DATABASE_URL env)) empty_world)
  /\ save_forecast_to_db env "Alice" "Paris" (JObj []) empty_world =
       (Raise e, record (DbConnect (DATABASE_URL env)) empty_world).
Proof.
  intros e env.
  apply (connect_exception_propagates env "Alice" "Paris" (JObj []) empty_world e);
    reflexivity.
Defined.

(** X20: a successful [init_db] commits and closes: afterwards the forecasts
    table exists (created empty with the five columns when it was absent),
    every other relation is as it was, and the effects are connect, cursor,
    execute, cursor close, commit, close and the final print, in that
    order. *)
Theorem init_db_success (env : environment) (w : world) :
  init_db_succeeds env = true ->
  init_db env w =
    (Ret tt,
     {| stored := ensure_forecasts (stored w);
        trace := trace w ++ [DbConnect (DATABASE_URL env); DbCursor;
                             DbExecute CreateForecasts; DbCursorClose; DbCommit; DbClose;
                             Print "Database initialized successfully."] |})
  /\ is_Some (ensure_forecasts (stored w) !! "forecasts")
  /\ (stored w !! "forecasts" = None ->
      ensure_forecasts (stored w) !! "forecasts" = Some (Table forecasts_columns []))
  /\ (forall name, name <> "forecasts" ->
      ensure_forecasts (stored w) !! name = stored w !! name).
Proof.
  unfold init_db_succeeds. intros Hok. split; [|split; [|split]].
  - unfold init_db. unfold bind at 1. rewrite get_db_connection_eq. cbv zeta.
    destruct (psycopg2_connect env (DATABASE_URL env)); [discriminate|].
    unfold with_cursor, cursor_execute, conn_commit, conn_close, try_finally, bind, emit,
      may_fail, lift, ret, throw, record.
    destruct (cursor_fault env); [discriminate|]. cbn -[run_statement].
    destruct (execute_fault env CreateForecasts); [discriminate|]. cbn -[run_statement].
    rewrite run_statement_create. cbn.
    destruct (commit_fault env); [discriminate|]. cbn.
    rewrite <- !app_assoc. reflexivity.
  - unfold ensure_forecasts.
    destruct (stored w !! "forecasts") as [t|] eqn:Ht; [rewrite Ht; eauto|].
    rewrite lookup_insert_eq. eauto.
  - intros Ht. unfold ensure_forecasts. rewrite Ht. apply lookup_insert_eq.
  - intros name Hne. unfold ensure_forecasts.
    destruct (stored w !! "forecasts"); [reflexivity|].
    apply lookup_insert_ne. congruence.
Qed.

Lemma init_db_success_witness :
  let env := with_database (Some "postgresql://app@localhost:5432/weather") None None None in
  stored (call (init_db env) empty_world) !! "forecasts" = Some (Table forecasts_columns []).
Proof.
  intros env.
  destruct (init_db_success env empty_world eq_refl) as (Heq & _ & Hnew & _).
  unfold call. rewrite Heq. simpl. apply Hnew. reflexivity.
Defined.

(** X21: [init_db] has no [finally]: when the connection is open and the
    cursor, the statement or the commit fails, [init_db] raises that
    exception, nothing is stored, and [conn.close()] is never called. *)
Theorem init_db_failure_leaves_connection_open (env : environment) (w : world) :
  psycopg2_connect env (DATABASE_URL env) = None ->
  init_db_succeeds env = false ->
  exists e tr,
    init_db env w = (Raise e, {| stored := stored w; trace := trace w ++ tr |})
    /\ ~ In DbClose tr
    /\ (cursor_fault env = Some e \/ execute_fault env CreateForecasts = Some e
        \/ commit_fault env = Some e).
Proof.
  unfold init_db_succeeds. intros Hc Hfail. rewrite Hc in Hfail.
  unfold init_db. unfold bind at 1. rewrite get_db_connection_eq, Hc. cbv zeta.
  unfold with_cursor, cursor_execute, conn_commit, conn_close, try_finally, bind, emit,
    may_fail, lift, ret, throw, record.
  destruct (cursor_fault env) as [e|]; cbn -[run_statement].
  { exists e, [DbConnect (DATABASE_URL env); DbCursor].
    rewrite <- !app_assoc. split; [reflexivity|]. split; [|auto].
    simpl. intros [H|[H|[]]]; discriminate. }
  destruct (execute_fault env CreateForecasts) as [e|]; cbn -[run_statement].
  { exists e, [DbConnect (DATABASE_URL env); DbCursor; DbExecute CreateForecasts; DbCursorClose].
    rewrite <- !app_assoc. split; [reflexivity|]. split; [|auto].
    simpl. intros [H|[H|[H|[H|[]]]]]; discriminate. }
  rewrite run_statement_create. cbn.
  destruct (commit_fault env) as [e|]; [|discriminate]. cbn.
  exists e, [DbConnect (DATABASE_URL env); DbCursor; DbExecute CreateForecasts; DbCursorClose;
             DbCommit].
  rewrite <- !app_assoc. split; [reflexivity|]. split; [|auto].
  simpl. intros [H|[H|[H|[H|[H|[]]]]]]; discriminate.
Qed.

Lemma init_db_failure_leaves_connection_open_witness :
  let env := with_database (Some "postgresql://app@localhost:5432/weather") None
               (Some (Exn OperationalError "server closed the connection unexpectedly"))
               None in
  exists e tr,
    init_db env empty_world =
      (Raise e, {| stored := stored empty_world; trace := trace empty_world ++ tr |})
    /\ ~ In DbClose tr
    /\ (cursor_fault env = Some e \/ execute_fault env CreateForecasts = Some e
        \/ commit_fault env = Some e).
Proof.
  intros env.
  apply (init_db_failure_leaves_connection_open env empty_world); reflexivity.
Defined.

(** ** Forecast store: what an insert can and cannot do *)

(** Every path of [save_forecast_to_db] at once: its effects are store
    events; it stores either nothing or the appended row; it raises only what
    an unhandled connect or a failing rollback raises; with a connection, the
    close is the last effect and the only close. *)
Lemma save_forecast_to_db_outline (env : environment) (user_name city : string)
    (forecast_data : json) (w : world) :
  exists o tr db,
    save_forecast_to_db env user_name city forecast_data w =
      (o, {| stored := db; trace := trace w ++ tr |})
    /\ forallb is_store_event tr = true
    /\ (db = stored w
        \/ exists t, stored w !! "forecasts" = Some t
             /\ db = <["forecasts" :=
                        append_row (new_row env user_name city forecast_data) t]> (stored w)
             /\ o = Ret (true, "Forecast saved successfully!"))
    /\ (forall e, o = Raise e ->
          (psycopg2_connect env (DATABASE_URL env) = Some e /\ is_OperationalError e = false)
          \/ rollback_fault env = Some e)
    /\ (forall res, o = Ret res ->
          res = (true, "Forecast saved successfully!")
          \/ res = (false, "Database connection failed.")
          \/ res = (false, "Failed to save forecast due to a database error."))
    /\ (psycopg2_connect env (DATABASE_URL env) = None ->
        exists mid, tr = (DbConnect (DATABASE_URL env) :: mid ++ [DbClose])%list
                    /\ ~ In DbClose mid).
Proof.
  rewrite save_forecast_to_db_eq. cbv zeta.
  destruct (psycopg2_connect env (DATABASE_URL env)) as [e|] eqn:Hc.
  { destruct (is_OperationalError e) eqn:Hop; unfold record; simpl;
      rewrite <- ?app_assoc; simpl;
      do 3 eexists; (split; [reflexivity|]);
      (split; [reflexivity|]); (split; [left; reflexivity|]);
      (split; [intros e' [= <-]; auto|]);
      (split; [intros res [= <-]; auto|]); discriminate. }
  rewrite insert_attempt_eq. cbv zeta.
  assert (Hfailure : forall e w2 mid,
    stored w2 = stored w ->
    trace w2 = (trace w ++ DbConnect (DATABASE_URL env) :: mid)%list ->
    ~ In DbClose mid -> forallb is_store_event mid = true ->
    exists o tr db,
      match rollback_fault env with
      | Some e' => (Raise e', record DbClose (record DbRollback w2))
      | None =>
          (Ret (false, "Failed to save forecast due to a database error."),
           record DbClose (record (Print ("Database error: " ++ exn_str e))
             (record DbRollback w2)))
      end = (o, {| stored := db; trace := trace w ++ tr |})
      /\ forallb is_store_event tr = true
      /\ (db = stored w
          \/ exists t, stored w !! "forecasts" = Some t
               /\ db = <["forecasts" :=
                          append_row (new_row env user_name city forecast_data) t]> (stored w)
               /\ o = Ret (true, "Forecast saved successfully!"))
      /\ (forall e0, o = Raise e0 ->
            (@None exn = Some e0 /\ is_OperationalError e0 = false)
            \/ rollback_fault env = Some e0)
      /\ (forall res, o = Ret res ->
            res = (true, "Forecast saved successfully!")
            \/ res = (false, "Database connection failed.")
            \/ res = (false, "Failed to save forecast due to a database error."))
      /\ (@None exn = None ->
          exists mid', tr = (DbConnect (DATABASE_URL env) :: mid' ++ [DbClose])%list
                       /\ ~ In DbClose mid')).
  { intros e w2 mid Hst Htr Hmid Hstore.
    destruct (rollback_fault env) as [e'|]; unfold record; simpl;
      rewrite Hst, Htr, <- ?app_assoc; simpl.
    - exists (Raise e'), (DbConnect (DATABASE_URL env) :: mid ++ [DbRollback; DbClose])%list,
        (stored w).
      split; [reflexivity|]. split; [simpl; rewrite forallb_app, Hstore; reflexivity|].
      split; [auto|]. split; [intros e0 [= <-]; auto|]. split; [discriminate|].
      intros _. exists (mid ++ [DbRollback])%list. rewrite <- app_assoc. split; [reflexivity|].
      rewrite in_app_iff. intros [H|[H|[]]]; [auto | discriminate].
    - exists (Ret (false, "Failed to save forecast due to a database error.")),
        (DbConnect (DATABASE_URL env)
           :: mid ++ [DbRollback; Print ("Database error: " ++ exn_str e); DbClose])%list,
        (stored w).
      split; [reflexivity|]. split; [simpl; rewrite forallb_app, Hstore; reflexivity|].
      split; [auto|]. split; [discriminate|]. split; [intros res [= <-]; auto|].
      intros _. exists (mid ++ [DbRollback; Print ("Database error: " ++ exn_str e)])%list.
      rewrite <- app_assoc. split; [reflexivity|].
      rewrite in_app_iff. intros [H|[H|[H|[]]]]; [auto | discriminate | discriminate]. }
  assert (Hmid3 : ~ In DbClose
                      [DbCursor; DbExecute (InsertForecast user_name city forecast_data);
                       DbCursorClose]).
  { simpl. intros [H|[H|[H|[]]]]; discriminate. }
  destruct (cursor_fault env) as [e|].
  { apply (Hfailure e _ [DbCursor]);
      [reflexivity | unfold record; simpl; rewrite <- ?app_assoc; reflexivity | | reflexivity].
    simpl. intros [H|[]]; discriminate. }
  destruct (execute_fault env _) as [e|].
  { apply (Hfailure e _ [DbCursor; DbExecute (InsertForecast user_name city forecast_data);
                         DbCursorClose]);
      [reflexivity | unfold record; simpl; rewrite <- ?app_assoc; reflexivity
      | exact Hmid3 | reflexivity]. }
  unfold run_statement. cbn [pending].
  destruct (stored w !! "forecasts") as [t|] eqn:Ht; cbv beta iota.
  2:{ apply (Hfailure _ _ [DbCursor; DbExecute (InsertForecast user_name city forecast_data);
                           DbCursorClose]);
        [reflexivity | unfold record; simpl; rewrite <- ?app_assoc; reflexivity
        | exact Hmid3 | reflexivity]. }
  destruct (commit_fault env) as [e|].
  { apply (Hfailure e _ [DbCursor; DbExecute (InsertForecast user_name city forecast_data);
                         DbCursorClose; DbCommit]);
      [reflexivity | unfold record; simpl; rewrite <- ?app_assoc; reflexivity
      | | reflexivity].
    simpl. intros [H|[H|[H|[H|[]]]]]; discriminate. }
  unfold record. simpl. rewrite <- ?app_assoc. simpl.
  do 3 eexists. split; [reflexivity|]. split; [reflexivity|].
  split; [right; exists t; auto|]. split; [discriminate|].
  split; [intros res [= <-]; auto|].
  intros _. exists [DbCursor; DbExecute (InsertForecast user_name city forecast_data);
                    DbCursorClose; DbCommit].
  split; [reflexivity|]. simpl. intros [H|[H|[H|[H|[]]]]]; discriminate.
Qed.

(** X22: once the connection is open, [conn.close()] is called exactly once
    and is the last effect of [save_forecast_to_db], on every path: success,
    write failure, and a rollback that itself raises. *)
Theorem connection_closed_exactly_once (env : environment) (user_name city : string)
    (forecast_data : json) (w : world) :
  psycopg2_connect env (DATABASE_URL env) = None ->
  exists mid,
    effects (save_forecast_to_db env user_name city forecast_data) w =
      (trace w ++ DbConnect (DATABASE_URL env) :: mid ++ [DbClose])%list
    /\ ~ In DbClose mid.
Proof.
  intros Hc.
  destruct (save_forecast_to_db_outline env user_name city forecast_data w)
    as (o & tr & db & Heq & _ & _ & _ & _ & Hclose).
  destruct (Hclose Hc) as (mid & -> & Hmid).
  exists mid. unfold effects. rewrite Heq. auto.
Qed.

Lemma connection_closed_exactly_once_witness :
  let env := with_database (Some "postgresql://app@localhost:5432/weather") None
               (Some (Exn OperationalError "server closed the connection unexpectedly"))
               (Some (Exn Psycopg2Error "connection already closed")) in
  exists mid,
    effects (save_forecast_to_db env "Alice" "Paris" (JObj [])) empty_world =
      (trace empty_world ++ DbConnect (DATABASE_URL env) :: mid ++ [DbClose])%list
    /\ ~ In DbClose mid.
Proof.
  intros env.
  apply (connection_closed_exactly_once env "Alice" "Paris" (JObj []) empty_world).
  reflexivity.
Defined.

(** X23: the store functions touch no relation but forecasts: after
    [save_forecast_to_db] and after [init_db], whatever the database calls
    do, every other relation is as it was. *)
Theorem store_touches_only_forecasts (env : environment) (user_name city : string)
    (forecast_data : json) (w : world) (name : string) :
  name <> "forecasts" ->
  database_after (save_forecast_to_db env user_name city forecast_data) w !! name
    = stored w !! name
  /\ stored (call (init_db env) w) !! name = stored w !! name.
Proof.
  intros Hne. split.
  - destruct (save_forecast_to_db_outline env user_name city forecast_data w)
      as (o & tr & db & Heq & _ & Hdb & _).
    unfold database_after. rewrite Heq. simpl.
    destruct Hdb as [-> | (t & _ & -> & _)]; [reflexivity|].
    apply lookup_insert_ne. congruence.
  - rewrite init_db_stored. destruct (init_db_succeeds env); [|reflexivity].
    unfold ensure_forecasts. destruct (stored w !! "forecasts"); [reflexivity|].
    apply lookup_insert_ne. congruence.
Qed.

Lemma store_touches_only_forecasts_witness :
  let env := with_database (Some "postgresql://app@localhost:5432/weather") None None None in
  let w := {| stored := {["users" := Table [("id", "SERIAL PRIMARY KEY")] []]}; trace := [] |} in
  database_after (save_forecast_to_db env "Alice" "Paris" (JObj [])) w !! "users"
    = stored w !! "users"
  /\ stored (call (init_db env) w) !! "users" = stored w !! "users".
Proof.
  intros env w.
  apply (store_touches_only_forecasts env "Alice" "Paris" (JObj []) w "users").
  discriminate.
Defined.

(** X24: [save_forecast_to_db] only ever appends: whatever the database
    calls do, an existing forecasts table keeps its columns and its rows, in
    order, followed by at most the one new row; and the function never
    creates the table. *)
Theorem saved_rows_are_append_only (env : environment) (user_name city : string)
    (forecast_data : json) (w : world) :
  match stored w !! "forecasts" with
  | Some t =>
      exists t',
        database_after (save_forecast_to_db env user_name city forecast_data) w
          !! "forecasts" = Some t'
        /\ columns t' = columns t
        /\ (rows t' = rows t
            \/ rows t' = (rows t ++ [new_row env user_name city forecast_data])%list)
  | None =>
      database_after (save_forecast_to_db env user_name city forecast_data) w
        !! "forecasts" = None
  end.
Proof.
  destruct (save_forecast_to_db_outline env user_name city forecast_data w)
    as (o & tr & db & Heq & _ & Hdb & _).
  unfold database_after. rewrite Heq. simpl.
  destruct (stored w !! "forecasts") as [t|] eqn:Ht.
  - destruct Hdb as [-> | (t0 & Ht0 & -> & _)].
    + exists t. auto.
    + injection Ht0 as <-. eexists. split; [apply lookup_insert_eq|]. simpl. auto.
  - destruct Hdb as [-> | (t0 & Ht0 & _)]; [assumption | discriminate].
Qed.

(** ** Save handler: outcomes *)

(** The handler once the three fields are non-empty. *)
Lemma save_forecast_valid_form (env : environment) (req : request) (w : world)
    (c1 c2 c3 : ascii) (u ci raw : string) :
  form req !! "user_name" = Some (String c1 u) ->
  form req !! "city" = Some (String c2 ci) ->
  form req !! "raw_data" = Some (String c3 raw) ->
  save_forecast env req w =
    match json_loads env (String c3 raw) with
    | Raise e =>
        if is_JSONDecodeError e
        then (Ret (Redirect "index"),
              record (Flash "Invalid forecast data format." "error") w)
        else (Raise e, w)
    | Ret d =>
        match save_forecast_to_db env (String c1 u) (String c2 ci) d w with
        | (Ret res, w') =>
            (Ret (Redirect "index"),
             record (Flash (snd res) (if fst res then "success" else "error")) w')
        | (Raise e, w') =>
            if is_JSONDecodeError e
            then (Ret (Redirect "index"),
                  record (Flash "Invalid forecast data format." "error") w')
            else (Raise e, w')
        end
    end.
Proof.
  intros Hu Hc Hraw. unfold save_forecast. rewrite Hu, Hc, Hraw.
  unfold try_except, bind at 1 2 3, lift, py_json_loads.
  destruct (json_loads env (String c3 raw)) as [d|e].
  - destruct (save_forecast_to_db env (String c1 u) (String c2 ci) d w) as [[res|e] w'].
    + reflexivity.
    + simpl. destruct (is_JSONDecodeError e); reflexivity.
  - simpl. destruct (is_JSONDecodeError e); reflexivity.
Qed.

(** X25: when [json.loads] returns or raises JSONDecodeError on the submitted
    raw data, [psycopg2.connect] succeeds or raises OperationalError, and the
    rollback does not raise, the save handler answers the submission with the
    redirect to the form after exactly one flash, which is its last effect;
    all effects before it are store events, and the category is "success"
    exactly when the message is the success message. *)
Theorem save_forecast_answers_with_one_flash (env : environment) (req : request) (w : world) :
  (forall raw e, form req !! "raw_data" = Some raw -> json_loads env raw = Raise e ->
                 is_JSONDecodeError e = true) ->
  (forall e, psycopg2_connect env (DATABASE_URL env) = Some e -> is_OperationalError e = true) ->
  rollback_fault env = None ->
  exists db tr msg cat,
    save_forecast env req w =
      (Ret (Redirect "index"),
       {| stored := db; trace := (trace w ++ tr) ++ [Flash msg cat] |})
    /\ forallb is_store_event tr = true
    /\ (cat = "success" /\ msg = "Forecast saved successfully!"
        \/ cat = "error" /\ msg <> "Forecast saved successfully!").
Proof.
  intros Hloads Hconn Hrb.
  assert (Hmissing :
    exists db tr msg cat,
      (Ret (Redirect "index"), record (Flash "Missing data to save the forecast." "error") w) =
        (Ret (Redirect "index"),
         {| stored := db; trace := (trace w ++ tr) ++ [Flash msg cat] |})
      /\ forallb is_store_event tr = true
      /\ (cat = "success" /\ msg = "Forecast saved successfully!"
          \/ cat = "error" /\ msg <> "Forecast saved successfully!")).
  { exists (stored w), [], "Missing data to save the forecast.", "error".
    unfold record. rewrite app_nil_r. split; [reflexivity|]. split; [reflexivity|].
    right. split; [reflexivity | discriminate]. }
  destruct (form req !! "user_name") as [[|c1 u]|] eqn:Hu;
    destruct (form req !! "city") as [[|c2 ci]|] eqn:Hc;
    destruct (form req !! "raw_data") as [[|c3 raw]|] eqn:Hraw;
    try (unfold save_forecast; rewrite ?Hu, ?Hc, ?Hraw; exact Hmissing).
  rewrite (save_forecast_valid_form env req w c1 c2 c3 u ci raw Hu Hc Hraw).
  destruct (json_loads env (String c3 raw)) as [d|e] eqn:Hjson.
  2:{ rewrite (Hloads _ e eq_refl Hjson).
      exists (stored w), [], "Invalid forecast data format.", "error".
      unfold record. rewrite app_nil_r. split; [reflexivity|]. split; [reflexivity|].
      right. split; [reflexivity | discriminate]. }
  destruct (save_forecast_to_db_outline env (String c1 u) (String c2 ci) d w)
    as (o & tr & db & Heq & Hstore & _ & Hraise & Hres & _).
  rewrite Heq. destruct o as [res|e].
  - exists db, tr, (snd res), (if fst res then "success" else "error").
    split; [reflexivity|]. split; [assumption|].
    destruct (Hres res eq_refl) as [-> | [-> | ->]]; simpl.
    + left. auto.
    + right. split; [reflexivity | discriminate].
    + right. split; [reflexivity | discriminate].
  - exfalso. destruct (Hraise e eq_refl) as [[Hc' Hop] | Hrb'].
    + rewrite (Hconn e Hc') in Hop. discriminate.
    + rewrite Hrb in Hrb'. discriminate.
Qed.

Lemma save_forecast_answers_with_one_flash_witness :
  let env := with_database (Some "postgresql://app@localhost:5432/weather")
               (Some (Exn OperationalError "could not connect to server")) None None in
  let req := post [("user_name", "Alice"); ("city", "Paris"); ("raw_data", "{}")] in
  exists db tr msg cat,
    save_forecast env req empty_world =
      (Ret (Redirect "index"),
       {| stored := db; trace := (trace empty_world ++ tr) ++ [Flash msg cat] |})
    /\ forallb is_store_event tr = true
    /\ (cat = "success" /\ msg = "Forecast saved successfully!"
        \/ cat = "error" /\ msg <> "Forecast saved successfully!").
Proof.
  intros env req.
  apply (save_forecast_answers_with_one_flash env req empty_world).
  - intros raw e [= <-]. discriminate.
  - intros e [= <-]. reflexivity.
  - reflexivity.
Defined.

(** X26: the save handler never calls the weather API: whatever the
    submission and the database do, its effects are store events and
    flashes only; and when it raises, it has flashed nothing. *)
Theorem save_forecast_never_requests (env : environment) (req : request) (w : world) :
  exists tr,
    trace (snd (save_forecast env req w)) = (trace w ++ tr)%list
    /\ forallb (fun ev => is_store_event ev || is_flash_event ev) tr = true
    /\ forallb (fun ev => negb (is_http_event ev)) tr = true
    /\ (forall e, run (save_forecast env req) w = Raise e ->
        forallb is_store_event tr = true).
Proof.
  assert (Hmissing : forall m,
    exists tr,
      trace (snd (Ret (Redirect "index"), record (Flash m "error") w)) = (trace w ++ tr)%list
      /\ forallb (fun ev => is_store_event ev || is_flash_event ev) tr = true
      /\ forallb (fun ev => negb (is_http_event ev)) tr = true
      /\ (forall e, fst (Ret (Redirect "index"), record (Flash m "error") w) = Raise e ->
          forallb is_store_event tr = true)).
  { intros m. exists [Flash m "error"]. simpl. repeat split; auto. discriminate. }
  unfold run.
  destruct (form req !! "user_name") as [[|c1 u]|] eqn:Hu;
    destruct (form req !! "city") as [[|c2 ci]|] eqn:Hc;
    destruct (form req !! "raw_data") as [[|c3 raw]|] eqn:Hraw;
    try (unfold save_forecast; rewrite ?Hu, ?Hc, ?Hraw; apply Hmissing).
  rewrite (save_forecast_valid_form env req w c1 c2 c3 u ci raw Hu Hc Hraw).
  destruct (json_loads env (String c3 raw)) as [d|e0].
  2:{ destruct (is_JSONDecodeError e0); [apply Hmissing|].
      exists []. simpl. rewrite app_nil_r. auto. }
  destruct (save_forecast_to_db_outline env (String c1 u) (String c2 ci) d w)
    as (o & tr & db & Heq & Hstore & _).
  assert (Hweb : forallb (fun ev => is_store_event ev || is_flash_event ev) tr = true
                 /\ forallb (fun ev => negb (is_http_event ev)) tr = true).
  { rewrite forallb_forall in Hstore. split; apply forallb_forall; intros ev Hev;
      specialize (Hstore ev Hev); destruct ev; try discriminate; reflexivity. }
  destruct Hweb as [Hweb1 Hweb2].
  rewrite Heq. destruct o as [res|e]; [|destruct (is_JSONDecodeError e)].
  - exists (tr ++ [Flash (snd res) (if fst res then "success" else "error")])%list.
    simpl. rewrite app_assoc, !forallb_app, Hweb1, Hweb2.
    repeat split; auto. discriminate.
  - exists (tr ++ [Flash "Invalid forecast data format." "error"])%list.
    simpl. rewrite app_assoc, !forallb_app, Hweb1, Hweb2.
    repeat split; auto. discriminate.
  - exists tr. simpl. auto.
Qed.

Lemma save_forecast_never_requests_witness :
  let env := with_database (Some "postgresql://app@localhost:5432/weather") None None
               (Some (Exn Psycopg2Error "connection already closed")) in
  let req := post [("user_name", "Alice"); ("city", "Paris"); ("raw_data", "{}")] in
  exists tr,
    trace (snd (save_forecast env req empty_world)) = (trace empty_world ++ tr)%list
    /\ forallb (fun ev => is_store_event ev || is_flash_event ev) tr = true
    /\ forallb (fun ev => negb (is_http_event ev)) tr = true
    /\ (forall e, run (save_forecast env req) empty_world = Raise e ->
        forallb is_store_event tr = true).
Proof.
  intros env req. apply (save_forecast_never_requests env req empty_world).
Defined.

(** X27: a save submission in which the user name, the city or the raw data
    is empty or absent is rejected before anything is parsed or stored: the
    only effect is the missing-data flash, then the redirect. *)
Theorem save_forecast_rejects_missing_fields (env : environment) (req : request) (w : world) :
  truthy (form req !! "user_name") = false
  \/ truthy (form req !! "city") = false
  \/ truthy (form req !! "raw_data") = false ->
  save_forecast env req w =
    (Ret (Redirect "index"),
     record (Flash "Missing data to save the forecast." "error") w).
Proof.
  intros Hmissing. unfold save_forecast.
  destruct (form req !! "user_name") as [[|c1 u]|], (form req !! "city") as [[|c2 ci]|],
    (form req !! "raw_data") as [[|c3 raw]|];
    simpl in Hmissing; try reflexivity.
  destruct Hmissing as [H|[H|H]]; discriminate.
Qed.

Lemma save_forecast_rejects_missing_fields_witness :
  save_forecast (with_database (Some "postgresql://app@localhost:5432/weather") None None None)
    (post [("user_name", "Alice"); ("raw_data", "{}")]) empty_world =
    (Ret (Redirect "index"),
     record (Flash "Missing data to save the forecast." "error") empty_world).
Proof.
  apply (save_forecast_rejects_missing_fields
           (with_database (Some "postgresql://app@localhost:5432/weather") None None None)
           (post [("user_name", "Alice"); ("raw_data", "{}")]) empty_world).
  right. left. reflexivity.
Defined.

(** ** Weather client: one bad sample *)

(** The loop over a concatenation is the loop over the first part, then over
    the second with the entries built so far. *)
Lemma process_forecasts_app (env : environment) (l1 l2 : list json) :
  forall acc,
    process_forecasts env (l1 ++ l2) acc =
    (out ← process_forecasts env l1 acc; process_forecasts env l2 out).
Proof.
  induction l1 as [|s rest IH]; intros acc; simpl; [reflexivity|].
  destruct (py_getitem s "dt_txt") as [v|e]; simpl; [|reflexivity].
  destruct (py_contains "12:00:00" v) as [[|]|e]; simpl; [| apply IH | reflexivity].
  destruct (make_entry env s) as [en|e]; simpl; [apply IH | reflexivity].
Qed.

(** X28: the loop reads 'dt_txt' of every sample, midday or not: if the
    samples before it parse, a sample object without 'dt_txt' makes the
    client raise KeyError('dt_txt'), whatever follows it, and no forecast is
    returned. *)
Theorem sample_without_timestamp_raises (env : environment) (city : string) (c : ascii)
    (k : string) (r : response) (data : json) (w : world)
    (before after : list json) (fields : list (string * json)) :
  OPENWEATHER_API_KEY env = Some (String c k) ->
  requests_get env (api_url city (String c k)) = Responded r ->
  status_passes r = true ->
  json_result r = Ret data ->
  has_sample_list data = true ->
  samples_of data = (before ++ JObj fields :: after)%list ->
  forallb (sample_complete env) before = true ->
  dict_get "dt_txt" fields = None ->
  get_weather_forecast env city w =
    (Raise (Exn KeyError "'dt_txt'"), record (HttpGet (api_url city (String c k))) w).
Proof.
  intros Hkey Hget Hst Hjson Hlist Hsamples Hbefore Hmissing.
  rewrite (get_weather_forecast_configured env city c k w Hkey). cbv zeta. rewrite Hget.
  unfold parse_response. rewrite (raise_for_status_passes r Hst), Hjson.
  cbn [mbind outcome_bind].
  pose proof (samples_iterated data Hlist) as Hiter.
  destruct (py_dict_get data "list" (JArr [])) as [l|]; simpl in Hiter |- *; [|discriminate].
  rewrite Hiter. cbn [mbind outcome_bind].
  rewrite Hsamples, process_forecasts_app.
  destruct (process_forecasts_total env before Hbefore []) as (out & ->).
  simpl. rewrite Hmissing. reflexivity.
Qed.

Lemma sample_without_timestamp_raises_witness :
  let bad := [("dt", JInt 1704099600); ("main", JObj [("temp", JInt 3)])] in
  let good := midday_sample 1704110400 (JInt 7) "light rain" "10d" in
  let data := forecast_document [good; JObj bad; good] in
  let r := Response 200 "" (Ret data) in
  get_weather_forecast (answering (Some "secret") (Responded r)) "Paris" empty_world =
    (Raise (Exn KeyError "'dt_txt'"), record (HttpGet (api_url "Paris" "secret")) empty_world).
Proof.
  intros bad good data r.
  apply (sample_without_timestamp_raises (answering (Some "secret") (Responded r))
           "Paris" "s" "ecret" r data empty_world [good] [good] bad);
    reflexivity.
Defined.
